(** * FlashSigmoid attention layers

    A shallow embedding of
    [attention_simulator/layers/flash_sigmoid_attention.py]:
    the two kernel wrappers [flash2_sigmoid_attn] and
    [fused_sigmoid_flash2_attn], and the layers [FlashSigmoidAttention] and
    [FlashSigmoidCrossAttention] (construction and [forward]).

    Conventions.
    - Python [int] is [Z]; [%] and [//] are [Z.modulo] and [Z.div] (both
      floor-based, as in Python) with the [ZeroDivisionError] written out.
    - Python [float] and tensor elements are ideal reals [R]: a dtype is a tag
      carried by a tensor, rounding is not modelled.
    - A tensor is a shape, a dtype and an element function on multi-indices.
    - Exceptions are the left summand of [result]; the process-wide random
      state and the layer object [self] are threaded explicitly. *)

From Stdlib Require Import Reals Lra Lia ZArith List.
From Stdlib Require Import FunctionalExtensionality.
From stdpp Require Import base gmap strings list fin_maps.

(** ** Exceptions and results *)

Inductive PyError : Type :=
| AssertionError (msg : string)
| ZeroDivisionError
| ValueError (msg : string)
| IndexError (msg : string)
| RuntimeError (msg : string)
| ShapeMismatch (msg : string)
| UnsupportedConfiguration (msg : string).

Inductive result (A : Type) : Type :=
| Ok (a : A)
| Err (e : PyError).
Arguments Ok {A} a.
Arguments Err {A} e.

#[global] Instance result_ret : MRet result := fun A a => Ok a.

#[global] Instance result_bind : MBind result := fun A B f r =>
  match r with
  | Ok a => f a
  | Err e => Err e
  end.

(** The computation returns (raises nothing). *)
Definition succeeds {A} (r : result A) : Prop := exists a, r = Ok a.

(** ** Python integer and float primitives *)

(** [a % b] *)
Definition py_mod (a b : Z) : result Z :=
  if (b =? 0)%Z then Err ZeroDivisionError else Ok (a mod b)%Z.

(** [a // b] *)
Definition py_floordiv (a b : Z) : result Z :=
  if (b =? 0)%Z then Err ZeroDivisionError else Ok (a / b)%Z.

(** [n ** y] for a non-negative [int] base and a negative [float] exponent:
    [0 ** y] raises, any other base goes through the float power. *)
Definition py_pow_neg (n : nat) (y : R) : result R :=
  match n with
  | O => Err ZeroDivisionError
  | S _ => Ok (Rpower (INR n) y)
  end.

(** ** Random state

    The generator is a stream of uniform samples; drawing [n] samples
    advances the stream by [n]. *)
Definition Rng : Type := nat -> R.

Definition rng_skip (n : nat) (g : Rng) : Rng := fun i => g (n + i).

(** A Bernoulli draw that keeps an element with probability [1 - p]. *)
Definition keeps (g : Rng) (p : R) (i : nat) : bool :=
  if Rlt_dec (g i) p then false else true.

(** ** The state-and-exception monad *)

Definition M (St A : Type) : Type := St -> result (A * St).

#[global] Instance M_ret {St} : MRet (M St) := fun A a s => Ok (a, s).

#[global] Instance M_bind {St} : MBind (M St) := fun A B f m s =>
  match m s with
  | Ok (a, s') => f a s'
  | Err e => Err e
  end.

Definition raise {St A} (e : PyError) : M St A := fun _ => Err e.

(** A pure, fallible computation used inside a stateful one. *)
Definition lift {St A} (r : result A) : M St A := fun s =>
  match r with
  | Ok a => Ok (a, s)
  | Err e => Err e
  end.

(** ** Tensors *)

Inductive DType : Type := float16 | bfloat16 | float32 | float64.

#[global] Instance DType_eq_dec : EqDecision DType.
Proof. solve_decision. Defined.

(** Type promotion of two floating dtypes. *)
Definition promote (a b : DType) : DType :=
  match a, b with
  | float64, _ | _, float64 => float64
  | float32, _ | _, float32 => float32
  | float16, float16 => float16
  | bfloat16, bfloat16 => bfloat16
  | float16, bfloat16 | bfloat16, float16 => float32
  end.

Record Tensor : Type := mkTensor {
  shape : list nat;
  dtype : DType;
  data : list nat -> R
}.

(** Number of elements of a shape. *)
Definition numel (sh : list nat) : nat := fold_right Nat.mul 1 sh.

(** Row-major offset of a multi-index, and its inverse. *)
Fixpoint ravel (sh idx : list nat) : nat :=
  match sh, idx with
  | _ :: sh', i :: idx' => i * numel sh' + ravel sh' idx'
  | _, _ => 0
  end.

Fixpoint unravel (sh : list nat) (n : nat) : list nat :=
  match sh with
  | [] => []
  | _ :: sh' => n / numel sh' :: unravel sh' (n mod numel sh')
  end.

(** A multi-index addresses an element of a tensor of shape [sh]. *)
Definition in_range (idx sh : list nat) : Prop := Forall2 lt idx sh.

(** Two tensors with the same shape, dtype and elements. *)
Definition tensor_eqv (a b : Tensor) : Prop :=
  shape a = shape b /\ dtype a = dtype b /\
  forall idx, in_range idx (shape a) -> data a idx = data b idx.

(** [t.size(-1)] *)
Definition size_last (t : Tensor) : result nat :=
  match last (shape t) with
  | Some n => Ok n
  | None => Err (IndexError "Dimension specified as -1 but tensor has no dimensions")
  end.

(** [t * c] for a Python float [c]: the dtype of [t] is kept. *)
Definition scalar_mul (t : Tensor) (c : R) : Tensor :=
  {| shape := shape t; dtype := dtype t; data := fun idx => (data t idx * c)%R |}.

(** [torch.ones(sh, dtype=dt)] *)
Definition ones (sh : list nat) (dt : DType) : Tensor :=
  {| shape := sh; dtype := dt; data := fun _ => 1%R |}.

(** [t[:, :, :-1] *= c]: the slices of axis 2 except the last one are
    multiplied in place. *)
Definition imul_axis2_butlast (t : Tensor) (c : R) : result Tensor :=
  match shape t with
  | _ :: _ :: n :: _ =>
      Ok {| shape := shape t; dtype := dtype t;
            data := fun idx =>
              if bool_decide (nth 2 idx 0 < n - 1)
              then (data t idx * c)%R else data t idx |}
  | _ => Err (IndexError "too many indices for tensor")
  end.

(** Broadcasting of two shapes, aligned on their last axes (the arguments
    are the reversed shapes). *)
Fixpoint broadcast_rev (a b : list nat) : result (list nat) :=
  match a, b with
  | [], _ => Ok b
  | _, [] => Ok a
  | x :: a', y :: b' =>
      if bool_decide (x = y) then r ← broadcast_rev a' b'; Ok (x :: r)
      else if bool_decide (x = 1) then r ← broadcast_rev a' b'; Ok (y :: r)
      else if bool_decide (y = 1) then r ← broadcast_rev a' b'; Ok (x :: r)
      else Err (RuntimeError "The size of tensor a must match the size of tensor b")
  end.

Definition broadcast_shapes (a b : list nat) : result (list nat) :=
  r ← broadcast_rev (rev a) (rev b); Ok (rev r).

(** The index an operand of shape [sh] is read at, for the index [idx] of
    the broadcast result. *)
Definition bcast_index (sh idx : list nat) : list nat :=
  zip_with (fun s i => if bool_decide (s = 1) then 0 else i)
           sh (skipn (length idx - length sh) idx).

(** [a * b] for two tensors. *)
Definition tensor_mul (a b : Tensor) : result Tensor :=
  sh ← broadcast_shapes (shape a) (shape b);
  Ok {| shape := sh; dtype := promote (dtype a) (dtype b);
        data := fun idx =>
          (data a (bcast_index (shape a) idx) *
           data b (bcast_index (shape b) idx))%R |}.

(** [t.to(dt)] *)
Definition to (t : Tensor) (dt : DType) : Tensor :=
  {| shape := shape t; dtype := dt; data := data t |}.

(** The shape asked of [reshape], with at most one [-1] to be inferred. *)
Definition resolve_shape (n : nat) (new : list Z) : result (list nat) :=
  if bool_decide (Exists (fun z => z < -1)%Z new)
  then Err (RuntimeError "invalid shape dimension")
  else
    let known := filter (fun z => z ≠ (-1)%Z) new in
    let p := numel (Z.to_nat <$> known) in
    match length new - length known with
    | 0 => if bool_decide (p = n) then Ok (Z.to_nat <$> new)
           else Err (RuntimeError "shape is invalid for input size")
    | 1 => if bool_decide (p = 0)
           then Err (RuntimeError "cannot reshape: unspecified dimension is ambiguous or shape is invalid")
           else if bool_decide (n mod p = 0)
           then Ok ((fun z => if bool_decide (z = (-1)%Z) then n / p else Z.to_nat z) <$> new)
           else Err (RuntimeError "shape is invalid for input size")
    | _ => Err (RuntimeError "only one dimension can be inferred")
    end.

(** [t.reshape(new)] of a contiguous tensor: same elements in row-major
    order. *)
Definition reshape (t : Tensor) (new : list Z) : result Tensor :=
  sh ← resolve_shape (numel (shape t)) new;
  Ok {| shape := sh; dtype := dtype t;
        data := fun idx => data t (unravel (shape t) (ravel sh idx)) |}.

(** [t.select(dim, c)]: the [c]-th slice along axis [dim]. *)
Definition select (t : Tensor) (dim c : nat) : Tensor :=
  {| shape := firstn dim (shape t) ++ skipn (S dim) (shape t);
     dtype := dtype t;
     data := fun idx => data t (firstn dim idx ++ c :: skipn dim idx) |}.

(** [t.unbind(dim)] *)
Definition unbind (t : Tensor) (dim : nat) : result (list Tensor) :=
  if bool_decide (dim < length (shape t))
  then Ok (select t dim <$> seq 0 (nth dim (shape t) 0))
  else Err (IndexError "Dimension out of range").

(** [t.flatten(start)] *)
Definition flatten (t : Tensor) (start : nat) : result Tensor :=
  if bool_decide (start < length (shape t))
  then Ok {| shape := firstn start (shape t) ++ [numel (skipn start (shape t))];
             dtype := dtype t;
             data := fun idx =>
               data t (firstn start idx ++
                       unravel (skipn start (shape t)) (nth start idx 0)) |}
  else Err (IndexError "Dimension out of range").

(** Tuple unpacking [a, b = ts] and [a, b, c = ts]. *)
Definition unpack2 (ts : list Tensor) : result (Tensor * Tensor) :=
  match ts with
  | [a; b] => Ok (a, b)
  | _ => Err (ValueError "wrong number of values to unpack")
  end.

Definition unpack3 (ts : list Tensor) : result (Tensor * Tensor * Tensor) :=
  match ts with
  | [a; b; c] => Ok (a, b, c)
  | _ => Err (ValueError "wrong number of values to unpack")
  end.

(** ** The attention kernel

    The source imports [flash_attn_func] and [flash_attn_qkvpacked_func] from
    the package [flash_exp], which is not part of the source file; the import
    is taken to have succeeded. The definitions of this section model the
    kernel from its contract in the spec (sections 4.2, 4.4 and 6). *)

(** [sum_{j < n} f j] *)
Fixpoint rsum (n : nat) (f : nat -> R) : R :=
  match n with
  | O => 0%R
  | S n' => (rsum n' f + f n')%R
  end.

(** Modelled from the spec: the kernel's nonlinearity,
    [weight = sigmoid(logit)]. *)
Definition sigmoid (x : R) : R := (1 / (1 + exp (- x)))%R.

(** Modelled from the spec: the kernel's dot product [q_i . k_j] for batch
    [b] and head [h], over a head dimension [D]. *)
Definition dot_qk (q k : Tensor) (D b h i j : nat) : R :=
  rsum D (fun d => (data q [b; i; h; d] * data k [b; j; h; d])%R).

(** Modelled from the spec: the kernel's mask. Key [j] is masked out for
    query [i] by the right-aligned causal mask ([j > i + seq_kv - seq_q]), or
    by the left ([j < i - left]) or right ([j > i + right]) bound of the
    window; [-1] disables a bound. *)
Definition masked (causal : bool) (window_size : Z * Z) (Sq Sk i j : nat) : bool :=
  (causal && (Z.of_nat i + (Z.of_nat Sk - Z.of_nat Sq) <? Z.of_nat j)%Z)
  || ((0 <=? window_size.1)%Z && (Z.of_nat j <? Z.of_nat i - window_size.1)%Z)
  || ((0 <=? window_size.2)%Z && (Z.of_nat i + window_size.2 <? Z.of_nat j)%Z).

(** Modelled from the spec: the kernel's ALiBi slope of head [h] (of batch
    [b] for per-batch slopes). *)
Definition alibi_slope (s : Tensor) (b h : nat) : R :=
  match shape s with
  | [_] => data s [h]
  | _ => data s [b; h]
  end.

(** Modelled from the spec: the kernel's ALiBi bias
    [- slope * |i + seq_kv - seq_q - j|], nothing without slopes. *)
Definition alibi_bias (alibi_slopes : option Tensor) (Sq Sk b h i j : nat) : R :=
  match alibi_slopes with
  | None => 0%R
  | Some s =>
      (- alibi_slope s b h *
       Rabs (IZR (Z.of_nat i + Z.of_nat Sk - Z.of_nat Sq - Z.of_nat j)))%R
  end.

(** Modelled from the spec: the kernel's check of the slopes, (heads,) or
    (batch, heads). *)
Definition alibi_ok (alibi_slopes : option Tensor) (B H : nat) : bool :=
  match alibi_slopes with
  | None => true
  | Some s => bool_decide (shape s = [H]) || bool_decide (shape s = [B; H])
  end.

(** Modelled from the spec: the arguments of one kernel invocation, after
    its shape checks. *)
Record KernelArgs : Type := mkKernelArgs {
  kq : Tensor; kk : Tensor; kv : Tensor;
  kB : nat; kSq : nat; kSk : nat; kH : nat; kD : nat;
  kscale : R;
  kdropout_p : R;
  kwindow_size : Z * Z;
  kalibi_slopes : option Tensor;
  kcausal : bool;
  ksigmoid_bias : R
}.

(** Modelled from the spec: the kernel's
    [logit = (q_i . k_j) * scale + alibi_bias(i, j) + sigmoid_bias]. *)
Definition attn_logit (a : KernelArgs) (b h i j : nat) : R :=
  (dot_qk (kq a) (kk a) (kD a) b h i j * kscale a
   + alibi_bias (kalibi_slopes a) (kSq a) (kSk a) b h i j
   + ksigmoid_bias a)%R.

(** Modelled from the spec: the kernel's weight of key [j] for query [i],
    an independent sigmoid with no normalisation across [j]. *)
Definition attn_weight (a : KernelArgs) (b h i j : nat) : R :=
  sigmoid (attn_logit a b h i j).

(** Modelled from the spec: the kernel's dropout with probability [p] on the
    element at [idx] of a weight matrix of shape [sh]: one draw per element; a
    surviving weight is rescaled by [1 / (1 - p)]. Disabled when [p] is 0. *)
Definition weight_dropout (g : Rng) (p : R) (sh idx : list nat) (w : R) : R :=
  if Req_dec_T p 0 then w
  else if keeps g p (ravel sh idx) then (w * (1 / (1 - p)))%R
  else 0%R.

(** Modelled from the spec: the kernel's weight matrix after dropout, one
    draw per (batch, head, i, j). *)
Definition dropped_weight (a : KernelArgs) (g : Rng) (b h i j : nat) : R :=
  weight_dropout g (kdropout_p a) [kB a; kH a; kSq a; kSk a] [b; h; i; j]
    (attn_weight a b h i j).

(** Modelled from the spec: the kernel's
    [output_i = sum over unmasked j of weight(i, j) * v_j]. *)
Definition attn_out (a : KernelArgs) (g : Rng) (b i h d : nat) : R :=
  rsum (kSk a) (fun j =>
    if masked (kcausal a) (kwindow_size a) (kSq a) (kSk a) i j then 0%R
    else (dropped_weight a g b h i j * data (kv a) [b; j; h; d])%R).

(** Modelled from the spec: the kernel's result, of shape
    (batch, seq_q, heads, head_dim), and the random state it leaves. *)
Definition kernel_run (a : KernelArgs) : M Rng Tensor := fun g =>
  Ok ({| shape := [kB a; kSq a; kH a; kD a];
         dtype := dtype (kq a);
         data := fun idx =>
           attn_out a g (nth 0 idx 0) (nth 1 idx 0) (nth 2 idx 0) (nth 3 idx 0) |},
      if Req_dec_T (kdropout_p a) 0 then g
      else rng_skip (kB a * kH a * kSq a * kSk a) g).

(** Modelled from the spec: the accelerated kernel [flash_attn_func] of the
    package [flash_exp], imported as [flash_attn_sigmoid_func], is not part of
    the source file. Spec section 4.2: q is (batch, seq_q, heads, head_dim),
    k and v are (batch, seq_kv, heads, head_dim); inconsistent shapes fail
    with ShapeMismatch, a window bound below -1 with
    UnsupportedConfiguration; logit = (q_i . k_j) * scale + alibi_bias(i, j)
    + sigmoid_bias, weight = sigmoid(logit), output_i = sum of weight * v_j
    over unmasked j, dropout on the weights. With [softmax_scale=None] the
    scale is the reference [head_dim ** (-0.5)] (section 4.4). *)
Definition flash_attn_sigmoid_func (q k v : Tensor) (softmax_scale : option R)
    (dropout_p : R) (window_size : Z * Z) (alibi_slopes : option Tensor)
    (causal : bool) (sigmoid_bias : R) : M Rng Tensor :=
  match shape q, shape k, shape v with
  | [B; Sq; H; D], [Bk; Sk; Hk; Dk], [Bv; Sv; Hv; Dv] =>
      if negb (bool_decide (Bk = B /\ Bv = B /\ Sv = Sk /\ Hk = H /\ Hv = H
                            /\ Dk = D /\ Dv = D)
               && alibi_ok alibi_slopes B H)
      then raise (ShapeMismatch "q, k, v or alibi_slopes have inconsistent shapes")
      else if bool_decide (window_size.1 < -1 \/ window_size.2 < -1)%Z
      then raise (UnsupportedConfiguration "window bound below -1")
      else
        scale ← lift (match softmax_scale with
                      | Some s => Ok s
                      | None => py_pow_neg D (-0.5)
                      end);
        kernel_run (mkKernelArgs q k v B Sq Sk H D scale dropout_p
                                 window_size alibi_slopes causal sigmoid_bias)
  | _, _, _ => raise (ShapeMismatch "q, k and v must have four axes")
  end.

(** Modelled from the spec: the packed kernel [flash_attn_qkvpacked_func] of
    [flash_exp], imported as [flash_attn_sigmoid_qkvpacked_func]: the same
    contract on a packed tensor (batch, seq, 3, heads, head_dim) whose axis 2
    holds q, k and v (spec section 6). *)
Definition flash_attn_sigmoid_qkvpacked_func (qkv : Tensor)
    (softmax_scale : option R) (dropout_p : R) (causal : bool)
    (window_size : Z * Z) (alibi_slopes : option Tensor)
    (sigmoid_bias : R) : M Rng Tensor :=
  match shape qkv with
  | [_; _; 3; _; _] =>
      flash_attn_sigmoid_func (select qkv 2 0) (select qkv 2 1) (select qkv 2 2)
        softmax_scale dropout_p window_size alibi_slopes causal sigmoid_bias
  | _ => raise (ShapeMismatch "qkv must be (batch, seq, 3, heads, head_dim)")
  end.

(** ** The kernel wrappers *)

(** Unfused attn helper. Returns (batch_size, seqlen, nheads * headdim). *)
Definition flash2_sigmoid_attn (q k v : Tensor) (sigmoid_bias : R)
    (attn_drop : R) (window_size : Z * Z) (alibi_slopes : option Tensor)
    (causal : bool) (prescale : bool) : M Rng Tensor :=
  scale_factor ← lift (d ← size_last q; py_pow_neg d (-0.25));
  out ← flash_attn_sigmoid_func
           (if prescale then scalar_mul q scale_factor else q)
           (if prescale then scalar_mul k scale_factor else k)
           v
           (if prescale then Some 1%R else None)
           attn_drop window_size alibi_slopes causal sigmoid_bias;
  lift (flatten out 2).

(** The reference of spec section 4.4, stated on the helper's arguments: the
    raw dot product of the unscaled q and k, scaled by
    [head_dim ** (-0.5)]. *)
Definition reference_sigmoid_attn (q k v : Tensor) (sigmoid_bias : R)
    (attn_drop : R) (window_size : Z * Z) (alibi_slopes : option Tensor)
    (causal : bool) : M Rng Tensor :=
  scale ← lift (d ← size_last q; py_pow_neg d (-0.5));
  out ← flash_attn_sigmoid_func q k v (Some scale)
           attn_drop window_size alibi_slopes causal sigmoid_bias;
  lift (flatten out 2).

(** The packed tensor handed to the kernel by the fused helper. *)
Definition fused_kernel_input (qkv : Tensor) (prescale : bool) : result Tensor :=
  let scale_factor := ones [1; 1; 3; 1; 1] (dtype qkv) in
  c ← (d ← size_last qkv; py_pow_neg d (-0.25));
  scale_factor ← imul_axis2_butlast scale_factor c;
  if prescale then tensor_mul qkv scale_factor else Ok qkv.

(** Fused attn helper. Returns (batch_size, seqlen, nheads * headdim). *)
Definition fused_sigmoid_flash2_attn (qkv : Tensor) (sigmoid_bias : R)
    (attn_drop : R) (window_size : Z * Z) (alibi_slopes : option Tensor)
    (causal : bool) (prescale : bool) : M Rng Tensor :=
  arg ← lift (fused_kernel_input qkv prescale);
  out ← flash_attn_sigmoid_qkvpacked_func arg
           (if prescale then Some 1%R else None)
           attn_drop causal window_size alibi_slopes sigmoid_bias;
  lift (flatten out 2).

(** ** Building blocks from torch

    A sub-module ([nn.Linear], [nn.LayerNorm], [nn.Identity], or whatever a
    factory passed to the constructor returns) is a fallible function on
    tensors; a factory is a fallible function returning a sub-module. *)
Definition TorchModule : Type := Tensor -> result Tensor.

(** [nn.Identity()] *)
Definition nn_Identity : TorchModule := fun x => Ok x.

(** [nn.Linear(in_features, out_features, bias)] with weight [w] and bias [b]
    (the values they were initialised or trained to): [y = x W^T + b] on the
    last axis. *)
Definition nn_Linear (w : nat -> nat -> R) (b : nat -> R)
    (in_features out_features : Z) (bias : bool) : result TorchModule :=
  if bool_decide (in_features < 0 \/ out_features < 0)%Z
  then Err (RuntimeError "Trying to create tensor with negative dimension")
  else Ok (fun x =>
    match last (shape x) with
    | Some n =>
        if bool_decide (n = Z.to_nat in_features)
        then Ok {| shape := removelast (shape x) ++ [Z.to_nat out_features];
                   dtype := dtype x;
                   data := fun idx =>
                     let o := List.last idx 0 in
                     (rsum n (fun i => data x (removelast idx ++ [i]) * w o i)
                      + (if bias then b o else 0))%R |}
        else Err (RuntimeError "mat1 and mat2 shapes cannot be multiplied")
    | None => Err (RuntimeError "both arguments to linear need to be at least 1D")
    end).

(** [nn.LayerNorm(n)] at its initial parameters (weight 1, bias 0,
    eps 1e-5). Under autocast the result is in float32 whatever the input. *)
Definition nn_LayerNorm (autocast : bool) (n : Z) : result TorchModule :=
  if bool_decide (n < 0)%Z
  then Err (RuntimeError "Trying to create tensor with negative dimension")
  else Ok (fun x =>
    match last (shape x) with
    | Some m =>
        if bool_decide (m = Z.to_nat n)
        then Ok {| shape := shape x;
                   dtype := if autocast then float32 else dtype x;
                   data := fun idx =>
                     let row i := data x (removelast idx ++ [i]) in
                     let mean := (rsum m row / INR m)%R in
                     let var := (rsum m (fun i => (row i - mean) * (row i - mean))
                                 / INR m)%R in
                     ((data x idx - mean) / sqrt (var + 0.00001))%R |}
        else Err (RuntimeError "Given normalized_shape does not match input shape")
    | None => Err (RuntimeError "Given normalized_shape does not match input shape")
    end).

(** [nn.Dropout(p)]: the probability is validated at construction; a new
    module is in training mode. *)
Record Dropout : Type := mkDropout {
  drop_p : R;
  drop_training : bool
}.

Definition nn_Dropout (p : R) : result Dropout :=
  if Rlt_dec p 0 then Err (ValueError "dropout probability has to be between 0 and 1")
  else if Rlt_dec 1 p then Err (ValueError "dropout probability has to be between 0 and 1")
  else Ok {| drop_p := p; drop_training := true |}.

Definition Dropout_forward (d : Dropout) (x : Tensor) : M Rng Tensor := fun g =>
  if negb (drop_training d) || bool_decide (numel (shape x) = 0) then Ok (x, g)
  else if Req_dec_T (drop_p d) 0 then Ok (x, g)
  else if Req_dec_T (drop_p d) 1
  then Ok ({| shape := shape x; dtype := dtype x; data := fun _ => 0%R |}, g)
  else Ok ({| shape := shape x; dtype := dtype x;
              data := fun idx =>
                if keeps g (drop_p d) (ravel (shape x) idx)
                then (data x idx * (1 / (1 - drop_p d)))%R else 0%R |},
           rng_skip (numel (shape x)) g).

(** ** What the layers pass around *)

(** The keyword arguments of a call of [which_flash_attn]. *)
Record AttnCall : Type := mkAttnCall {
  arg_q : Tensor;
  arg_k : Tensor;
  arg_v : Tensor;
  arg_attn_drop : R;
  arg_causal : bool;
  arg_window_size : Z * Z;
  arg_alibi_slopes : option Tensor;
  arg_sigmoid_bias : R
}.

Definition AttnFn : Type := AttnCall -> M Rng Tensor.

(** [flash2_sigmoid_attn] called with these keywords; [prescale] keeps its
    default [True]. *)
Definition flash2_sigmoid_attn_kw : AttnFn := fun c =>
  flash2_sigmoid_attn (arg_q c) (arg_k c) (arg_v c) (arg_sigmoid_bias c)
    (arg_attn_drop c) (arg_window_size c) (arg_alibi_slopes c) (arg_causal c)
    true.

(** [qk_transform(q, k, q_pos_offset=..., k_pos_offset=...)] *)
Definition QKTransform : Type :=
  Tensor -> Tensor -> Z -> Z -> result (Tensor * Tensor).

(** Values of extra keyword arguments. *)
Inductive PyValue : Type :=
| PyNone
| PyBool (b : bool)
| PyInt (z : Z)
| PyFloat (r : R)
| PyStr (s : string)
| PyTensor (t : Tensor).

(** [d.update(e)]: the entries of [e] win. *)
Definition dict_update (d e : gmap string Tensor) : gmap string Tensor := e ∪ d.

(** The state a [forward] call runs in: the layer object and the
    process-wide random state. *)
Record LayerState (L : Type) : Type := mkLayerState {
  st_self : L;
  st_rng : Rng
}.
Arguments mkLayerState {L} _ _.
Arguments st_self {L} _.
Arguments st_rng {L} _.

Definition get_self {L} : M (LayerState L) L := fun st => Ok (st_self st, st).

(** A computation that touches the random state only. *)
Definition with_rng {L A} (m : M Rng A) : M (LayerState L) A := fun st =>
  match m (st_rng st) with
  | Ok (a, g) => Ok (a, mkLayerState (st_self st) g)
  | Err e => Err e
  end.

(** What a caller observes of a [forward] call: the returned value and the
    random state left behind. *)
Definition observe {L A} (r : result (A * LayerState L)) : result (A * Rng) :=
  match r with
  | Ok (a, st) => Ok (a, st_rng st)
  | Err e => Err e
  end.

(** The optional function on Q and K, at the offsets [forward] passes. *)
Definition identity_transform : QKTransform := fun q k _ _ => Ok (q, k).

(** [B, N, C = x.shape] *)
Definition shape3 (x : Tensor) : result (nat * nat * nat) :=
  match shape x with
  | [B; N; C] => Ok (B, N, C)
  | _ => Err (ValueError "wrong number of values to unpack")
  end.

(** [sh[i]] on a shape tuple. *)
Definition shape_index (sh : list nat) (i : nat) : result nat :=
  match sh !! i with
  | Some n => Ok n
  | None => Err (IndexError "tuple index out of range")
  end.

(** ** SigmoidAttention layer *)

Module FlashSigmoidAttention.

Record t : Type := mk {
  causal : bool;
  num_heads : Z;
  qk_norm : bool;
  window_size : Z * Z;
  alibi_slopes : option Tensor;
  head_dim : Z;
  sigmoid_bias : R;
  which_flash_attn : AttnFn;
  qk_transform : option QKTransform;
  qkv : TorchModule;
  q_norm : TorchModule;
  k_norm : TorchModule;
  proj : TorchModule;
  attn_drop : R;
  proj_drop : Dropout
}.

(** [__init__] *)
Definition init (dim : Z) (sigmoid_bias : R) (causal : bool) (num_heads : Z)
    (bias qk_norm : bool) (attn_drop proj_drop : R) (window_size : Z * Z)
    (alibi_slopes : option Tensor) (norm_layer : Z -> result TorchModule)
    (which_linear : Z -> Z -> bool -> result TorchModule)
    (qk_transform : option QKTransform) (which_flash_attn : AttnFn)
    : result t :=
  m ← py_mod dim num_heads;
  if negb (m =? 0)%Z
  then Err (AssertionError "dim should be divisible by num_heads")
  else
    head_dim ← py_floordiv dim num_heads;
    qkv ← which_linear dim (dim * 3)%Z bias;
    q_norm ← (if qk_norm then norm_layer head_dim else Ok nn_Identity);
    k_norm ← (if qk_norm then norm_layer head_dim else Ok nn_Identity);
    proj ← which_linear dim dim bias;
    proj_drop ← nn_Dropout proj_drop;
    Ok {| causal := causal; num_heads := num_heads; qk_norm := qk_norm;
          window_size := window_size; alibi_slopes := alibi_slopes;
          head_dim := head_dim; sigmoid_bias := sigmoid_bias;
          which_flash_attn := which_flash_attn;
          qk_transform := qk_transform;
          qkv := qkv; q_norm := q_norm; k_norm := k_norm; proj := proj;
          attn_drop := attn_drop; proj_drop := proj_drop |}.

(** The q, k, v split of the fused projection (first lines of [forward]). *)
Definition project_qkv (self : t) (x : Tensor)
    : result (Tensor * Tensor * Tensor) :=
  '(B, N, C) ← shape3 x;
  y ← qkv self x;
  hd ← py_floordiv (Z.of_nat C) (num_heads self);
  qkv ← reshape y [Z.of_nat B; Z.of_nat N; 3%Z; num_heads self; hd];
  ts ← unbind qkv 2;
  unpack3 ts.

(** The keyword arguments [forward] calls [which_flash_attn] with. *)
Definition attn_call (self : t) (x : Tensor) : result AttnCall :=
  '(q, k, v) ← project_qkv self x;
  (* QK norm. *)
  q ← q_norm self q;
  k ← k_norm self k;
  (* Apply an optional function on Q and K (eg: RoPE). *)
  '(q, k) ← match qk_transform self with
            | Some xf => xf q k 0%Z 0%Z
            | None => Ok (q, k)
            end;
  Ok {| arg_q := to q (dtype v);
        arg_k := to k (dtype v);
        arg_v := v;
        arg_attn_drop := attn_drop self;
        arg_causal := causal self;
        arg_window_size := window_size self;
        arg_alibi_slopes := alibi_slopes self;
        arg_sigmoid_bias := sigmoid_bias self |}.

(** [forward(self, x, **unused_kwargs)] *)
Definition forward (x : Tensor) (unused_kwargs : gmap string PyValue)
    : M (LayerState t) (gmap string Tensor) :=
  self ← get_self;
  let output : gmap string Tensor := ∅ in
  c ← lift (attn_call self x);
  (* Apply attention to V and project back using a linear layer. *)
  attn_times_v ← with_rng (which_flash_attn self c);
  y ← lift (proj self attn_times_v);
  final_proj_output ← with_rng (Dropout_forward (proj_drop self) y);
  (* Return what is possible for analysis. *)
  mret (dict_update output
          (<["attn_times_v" := attn_times_v]>
             (<["attn_proj" := final_proj_output]> ∅))).

(** The layer with its [qk_transform] attribute replaced. *)
Definition set_qk_transform (self : t) (xf : option QKTransform) : t :=
  {| causal := causal self; num_heads := num_heads self;
     qk_norm := qk_norm self; window_size := window_size self;
     alibi_slopes := alibi_slopes self; head_dim := head_dim self;
     sigmoid_bias := sigmoid_bias self;
     which_flash_attn := which_flash_attn self;
     qk_transform := xf;
     qkv := qkv self; q_norm := q_norm self; k_norm := k_norm self;
     proj := proj self; attn_drop := attn_drop self;
     proj_drop := proj_drop self |}.

(** The layer with its [q_norm] and [k_norm] sub-modules replaced. *)
Definition set_qk_norms (self : t) (qn kn : TorchModule) : t :=
  {| causal := causal self; num_heads := num_heads self;
     qk_norm := qk_norm self; window_size := window_size self;
     alibi_slopes := alibi_slopes self; head_dim := head_dim self;
     sigmoid_bias := sigmoid_bias self;
     which_flash_attn := which_flash_attn self;
     qk_transform := qk_transform self;
     qkv := qkv self; q_norm := qn; k_norm := kn;
     proj := proj self; attn_drop := attn_drop self;
     proj_drop := proj_drop self |}.

End FlashSigmoidAttention.

(** ** A cross-attention Flash implementation *)

Module FlashSigmoidCrossAttention.

Record t : Type := mk {
  causal : bool;
  num_heads : Z;
  qk_norm : bool;
  window_size : Z * Z;
  alibi_slopes : option Tensor;
  head_dim_q : Z;
  head_dim_kv : Z;
  sigmoid_bias : R;
  which_flash_attn : AttnFn;
  qk_transform : option QKTransform;
  q_proj : TorchModule;
  kv_proj : TorchModule;
  q_norm : TorchModule;
  k_norm : TorchModule;
  v_norm : TorchModule;
  proj : TorchModule;
  attn_drop : R;
  proj_drop : Dropout
}.

(** [__init__] *)
Definition init (q_dim kv_dim : Z) (sigmoid_bias : R) (causal : bool)
    (num_heads : Z) (bias qk_norm : bool) (attn_drop proj_drop : R)
    (window_size : Z * Z) (alibi_slopes : option Tensor)
    (norm_layer : Z -> result TorchModule)
    (which_linear : Z -> Z -> bool -> result TorchModule)
    (qk_transform : option QKTransform) (which_flash_attn : AttnFn)
    : result t :=
  mq ← py_mod q_dim num_heads;
  divisible ← (if (mq =? 0)%Z
               then mkv ← py_mod kv_dim num_heads; Ok (mkv =? 0)%Z
               else Ok false);
  if negb divisible
  then Err (AssertionError "Dimensions should be divisible by num_heads")
  else
    head_dim_q ← py_floordiv q_dim num_heads;
    head_dim_kv ← py_floordiv kv_dim num_heads;
    q_proj ← which_linear q_dim q_dim bias;
    kv_proj ← which_linear kv_dim (kv_dim * 2)%Z bias;
    q_norm ← (if qk_norm then norm_layer head_dim_q else Ok nn_Identity);
    k_norm ← (if qk_norm then norm_layer head_dim_kv else Ok nn_Identity);
    v_norm ← norm_layer head_dim_kv;  (* Always norm on V. *)
    proj ← which_linear kv_dim q_dim bias;
    proj_drop ← nn_Dropout proj_drop;
    Ok {| causal := causal; num_heads := num_heads; qk_norm := qk_norm;
          window_size := window_size; alibi_slopes := alibi_slopes;
          head_dim_q := head_dim_q; head_dim_kv := head_dim_kv;
          sigmoid_bias := sigmoid_bias;
          which_flash_attn := which_flash_attn;
          qk_transform := qk_transform;
          q_proj := q_proj; kv_proj := kv_proj;
          q_norm := q_norm; k_norm := k_norm; v_norm := v_norm;
          proj := proj; attn_drop := attn_drop; proj_drop := proj_drop |}.

(** The projected q and the k, v split of the fused kv projection. *)
Definition project_q_kv (self : t) (q kv : Tensor)
    : result (Tensor * Tensor * Tensor) :=
  let q_shape := shape q in
  let kv_shape := shape kv in
  y ← q_proj self q;
  b ← shape_index q_shape 0;
  n ← shape_index q_shape 1;
  q ← reshape y [Z.of_nat b; Z.of_nat n; num_heads self; head_dim_q self];
  y ← kv_proj self kv;
  b ← shape_index kv_shape 0;
  n ← shape_index kv_shape 1;
  kv ← reshape y [Z.of_nat b; Z.of_nat n; 2%Z; num_heads self; head_dim_kv self];
  ts ← unbind kv 2;
  '(k, v) ← unpack2 ts;
  Ok (q, k, v).

(** The keyword arguments [forward] calls [which_flash_attn] with. *)
Definition attn_call (self : t) (q kv : Tensor) : result AttnCall :=
  '(q, k, v) ← project_q_kv self q kv;
  q ← q_norm self q;
  k ← k_norm self k;
  v ← v_norm self v;
  (* Apply an optional function on Q and K (eg: RoPE). *)
  '(q, k) ← match qk_transform self with
            | Some xf => xf q k 0%Z 0%Z
            | None => Ok (q, k)
            end;
  (* Force the dtype back. *)
  let q := to q (dtype v) in
  let k := to k (dtype v) in
  Ok {| arg_q := q;
        arg_k := k;
        arg_v := v;
        arg_attn_drop := attn_drop self;
        arg_causal := causal self;
        arg_window_size := window_size self;
        arg_alibi_slopes := alibi_slopes self;
        arg_sigmoid_bias := sigmoid_bias self |}.

(** [forward(self, q, kv, **unused_kwargs)] *)
Definition forward (q kv : Tensor) (unused_kwargs : gmap string PyValue)
    : M (LayerState t) (gmap string Tensor) :=
  self ← get_self;
  let output : gmap string Tensor := ∅ in
  c ← lift (attn_call self q kv);
  (* Apply attention to V and project back using a linear layer. *)
  attn_times_v ← with_rng (which_flash_attn self c);
  y ← lift (proj self attn_times_v);
  final_proj_output ← with_rng (Dropout_forward (proj_drop self) y);
  mret (dict_update output
          (<["attn_times_v" := attn_times_v]>
             (<["attn_proj" := final_proj_output]> ∅))).

(** The layer with its [qk_transform] attribute replaced. *)
Definition set_qk_transform (self : t) (xf : option QKTransform) : t :=
  {| causal := causal self; num_heads := num_heads self;
     qk_norm := qk_norm self; window_size := window_size self;
     alibi_slopes := alibi_slopes self;
     head_dim_q := head_dim_q self; head_dim_kv := head_dim_kv self;
     sigmoid_bias := sigmoid_bias self;
     which_flash_attn := which_flash_attn self;
     qk_transform := xf;
     q_proj := q_proj self; kv_proj := kv_proj self;
     q_norm := q_norm self; k_norm := k_norm self; v_norm := v_norm self;
     proj := proj self; attn_drop := attn_drop self;
     proj_drop := proj_drop self |}.

End FlashSigmoidCrossAttention.

(** ** A small instance

    A self-attention layer with dim 4 and two heads, built with
    [qk_norm=True] under autocast, and a cross-attention layer with
    [q_dim = 8] and [kv_dim = 4]; all-ones weights and inputs. *)

Definition demo_weight : nat -> nat -> R := fun _ _ => 1%R.
Definition demo_bias : nat -> R := fun _ => 0%R.

Definition demo_linear : Z -> Z -> bool -> result TorchModule :=
  nn_Linear demo_weight demo_bias.

(** The sub-module a factory call returned. *)
Definition built (r : result TorchModule) : TorchModule := fun x =>
  match r with
  | Ok m => m x
  | Err e => Err e
  end.

Definition demo_self : FlashSigmoidAttention.t :=
  {| FlashSigmoidAttention.causal := true;
     FlashSigmoidAttention.num_heads := 2;
     FlashSigmoidAttention.qk_norm := true;
     FlashSigmoidAttention.window_size := (-1, -1)%Z;
     FlashSigmoidAttention.alibi_slopes := None;
     FlashSigmoidAttention.head_dim := 2;
     FlashSigmoidAttention.sigmoid_bias := 0;
     FlashSigmoidAttention.which_flash_attn := flash2_sigmoid_attn_kw;
     FlashSigmoidAttention.qk_transform := None;
     FlashSigmoidAttention.qkv := built (demo_linear 4 12 false);
     FlashSigmoidAttention.q_norm := built (nn_LayerNorm true 2);
     FlashSigmoidAttention.k_norm := built (nn_LayerNorm true 2);
     FlashSigmoidAttention.proj := built (demo_linear 4 4 false);
     FlashSigmoidAttention.attn_drop := 0;
     FlashSigmoidAttention.proj_drop := mkDropout 0 true |}.

Definition demo_x : Tensor := ones [1; 2; 4] float16.

Definition demo_cross : FlashSigmoidCrossAttention.t :=
  {| FlashSigmoidCrossAttention.causal := true;
     FlashSigmoidCrossAttention.num_heads := 2;
     FlashSigmoidCrossAttention.qk_norm := false;
     FlashSigmoidCrossAttention.window_size := (-1, -1)%Z;
     FlashSigmoidCrossAttention.alibi_slopes := None;
     FlashSigmoidCrossAttention.head_dim_q := 4;
     FlashSigmoidCrossAttention.head_dim_kv := 2;
     FlashSigmoidCrossAttention.sigmoid_bias := 0;
     FlashSigmoidCrossAttention.which_flash_attn := flash2_sigmoid_attn_kw;
     FlashSigmoidCrossAttention.qk_transform := None;
     FlashSigmoidCrossAttention.q_proj := built (demo_linear 8 8 false);
     FlashSigmoidCrossAttention.kv_proj := built (demo_linear 4 8 false);
     FlashSigmoidCrossAttention.q_norm := nn_Identity;
     FlashSigmoidCrossAttention.k_norm := nn_Identity;
     FlashSigmoidCrossAttention.v_norm := built (nn_LayerNorm false 2);
     FlashSigmoidCrossAttention.proj := built (demo_linear 4 8 false);
     FlashSigmoidCrossAttention.attn_drop := 0;
     FlashSigmoidCrossAttention.proj_drop := mkDropout 0 true |}.

(** The cross-attention layer with equal widths, [q_dim = kv_dim = 4]. *)
Definition demo_cross_eq : FlashSigmoidCrossAttention.t :=
  {| FlashSigmoidCrossAttention.causal := true;
     FlashSigmoidCrossAttention.num_heads := 2;
     FlashSigmoidCrossAttention.qk_norm := false;
     FlashSigmoidCrossAttention.window_size := (-1, -1)%Z;
     FlashSigmoidCrossAttention.alibi_slopes := None;
     FlashSigmoidCrossAttention.head_dim_q := 2;
     FlashSigmoidCrossAttention.head_dim_kv := 2;
     FlashSigmoidCrossAttention.sigmoid_bias := 0;
     FlashSigmoidCrossAttention.which_flash_attn := flash2_sigmoid_attn_kw;
     FlashSigmoidCrossAttention.qk_transform := None;
     FlashSigmoidCrossAttention.q_proj := built (demo_linear 4 4 false);
     FlashSigmoidCrossAttention.kv_proj := built (demo_linear 4 8 false);
     FlashSigmoidCrossAttention.q_norm := nn_Identity;
     FlashSigmoidCrossAttention.k_norm := nn_Identity;
     FlashSigmoidCrossAttention.v_norm := built (nn_LayerNorm false 2);
     FlashSigmoidCrossAttention.proj := built (demo_linear 4 4 false);
     FlashSigmoidCrossAttention.attn_drop := 0;
     FlashSigmoidCrossAttention.proj_drop := mkDropout 0 true |}.

Definition demo_q : Tensor := ones [1; 2; 8] float16.
Definition demo_kv : Tensor := ones [1; 3; 4] float16.

Definition demo_qkv : Tensor := ones [1; 2; 3; 2; 2] float16.

Definition demo_head : Tensor := ones [1; 2; 1; 2] float16.

Definition demo_rng : Rng := fun _ => 0%R.

(** ** Proof automation *)

(** Invert a successful run of a chain of binds, one step at a time. *)
Ltac inv_bind H :=
  repeat match type of H with
         | (match ?r with Ok _ => _ | Err _ => _ end) = Ok _ =>
             let Hr := fresh "Hr" in
             destruct r eqn:Hr; [|discriminate H]
         | (?r ≫= _) = Ok _ =>
             let Hr := fresh "Hr" in
             destruct r eqn:Hr; [|discriminate H];
             cbn [mbind result_bind] in H
         | (let '(_, _) := ?p in _) = Ok _ => destruct p
         | (match ?p with (_, _) => _ end) = Ok _ => destruct p
         end.

(** Split a hypothesis [in_range idx [n1; ...; nk]] into its components. *)
Ltac inv_range H :=
  unfold in_range in H;
  repeat match type of H with
         | Forall2 _ _ (_ :: _) =>
             let x := fresh "i" in
             let l := fresh "idx" in
             let Hx := fresh "Hi" in
             apply Forall2_cons_inv_r in H as (x & l & Hx & H & ->)
         | Forall2 _ _ [] => apply Forall2_nil_inv_r in H as ->
         end.

(** Prove [in_range] of an explicit index from the bounds at hand. *)
Ltac solve_in_range :=
  unfold in_range;
  repeat (apply List.Forall2_cons; [first [assumption | lia]|]);
  apply List.Forall2_nil.

(** ** Conditions on what a caller plugs in *)

(** The positional transform, called at the offsets [forward] passes, returns
    and keeps the shapes of q and k. *)
Definition keeps_shapes (xf : option QKTransform) : Prop :=
  match xf with
  | None => True
  | Some f =>
      forall q k, exists q' k',
        f q k 0%Z 0%Z = Ok (q', k')
        /\ shape q' = shape q /\ shape k' = shape k
  end.

(** The result [r] of a computation, had it left the random state [g]. *)
Definition with_rng_of {A} (r : result (A * Rng)) (g : Rng) : result (A * Rng) :=
  match r with
  | Ok (a, _) => Ok (a, g)
  | Err e => Err e
  end.


(** ** Further inputs for the small instance *)


(** [demo_head] with its second row replaced. *)
Definition demo_head_future : Tensor :=
  {| shape := [1; 2; 1; 2]; dtype := float16;
     data := fun idx => match idx with
                        | [_; 0; _; _] => 1%R
                        | _ => 2%R
                        end |}.

(** Inputs whose last axis is empty. *)
Definition demo_empty_x : Tensor := ones [1; 2; 0] float16.
Definition demo_empty_head : Tensor := ones [1; 2; 1; 0] float16.
Definition demo_empty_qkv : Tensor := ones [1; 2; 3; 1; 0] float16.

(** * Properties *)

(** ** Arithmetic of the kernel *)

Lemma rsum_ext n f g : (forall j, j < n -> f j = g j) -> rsum n f = rsum n g.
Proof.
  induction n as [|n IH]; intros H; simpl; [reflexivity|].
  rewrite IH by (intros; apply H; lia). rewrite H by lia. reflexivity.
Qed.

Lemma rsum_scale n f c : rsum n (fun j => (f j * c)%R) = (rsum n f * c)%R.
Proof. induction n as [|n IH]; simpl; [lra|]. rewrite IH. lra. Qed.

Lemma Rpower_quarter_twice x :
  (Rpower x (-0.25) * Rpower x (-0.25) = Rpower x (-0.5))%R.
Proof. rewrite <- Rpower_plus. f_equal. lra. Qed.

Lemma sigmoid_bounds x : (0 < sigmoid x < 1)%R.
Proof.
  unfold sigmoid. pose proof (exp_pos (- x)) as He.
  split.
  - apply Rdiv_lt_0_compat; lra.
  - apply (Rmult_lt_reg_r (1 + exp (- x))); [lra|].
    unfold Rdiv. rewrite Rmult_assoc, Rinv_l by lra. lra.
Qed.

Lemma dot_qk_prescaled q k c D b h i j :
  dot_qk (scalar_mul q c) (scalar_mul k c) D b h i j
  = (dot_qk q k D b h i j * (c * c))%R.
Proof.
  unfold dot_qk. rewrite <- rsum_scale. apply rsum_ext. intros d _. simpl. lra.
Qed.

(** ** Running the monads *)

Lemma bind_run {St A B} (m : M St A) (f : A -> M St B) (s : St) :
  (m ≫= f) s = match m s with
               | Ok (a, s') => f a s'
               | Err e => Err e
               end.
Proof. reflexivity. Qed.

Lemma lift_run {St A} (r : result A) (s : St) :
  lift r s = match r with
             | Ok a => Ok (a, s)
             | Err e => Err e
             end.
Proof. reflexivity. Qed.

Lemma size_last_shape4 t B N H D :
  shape t = [B; N; H; D] -> size_last t = Ok D.
Proof. unfold size_last. intros ->. reflexivity. Qed.

Lemma py_pow_neg_S d y : py_pow_neg (S d) y = Ok (Rpower (INR (S d)) y).
Proof. reflexivity. Qed.

Lemma attn_weight_prescaled q k v B Sq Sk H D c p w a cz sb b h i j :
  attn_weight (mkKernelArgs (scalar_mul q c) (scalar_mul k c) v
                 B Sq Sk H D 1 p w a cz sb) b h i j
  = attn_weight (mkKernelArgs q k v B Sq Sk H D (c * c) p w a cz sb) b h i j.
Proof.
  unfold attn_weight, attn_logit. cbn [kq kk kD kscale kalibi_slopes kSq kSk ksigmoid_bias].
  rewrite dot_qk_prescaled. f_equal. lra.
Qed.

Lemma kernel_run_prescaled q k v B Sq Sk H D c p w a cz sb g :
  kernel_run (mkKernelArgs (scalar_mul q c) (scalar_mul k c) v
                B Sq Sk H D 1 p w a cz sb) g
  = kernel_run (mkKernelArgs q k v B Sq Sk H D (c * c) p w a cz sb) g.
Proof.
  unfold kernel_run. cbn [kq kB kSq kSk kH kD kdropout_p dtype scalar_mul].
  do 3 f_equal. apply functional_extensionality; intros idx.
  unfold attn_out. cbn [kSk kcausal kwindow_size kSq kv].
  apply rsum_ext; intros j _.
  destruct (masked _ _ _ _ _ _); [reflexivity|].
  f_equal. unfold dropped_weight.
  cbn [kdropout_p kB kH kSq kSk].
  rewrite attn_weight_prescaled. reflexivity.
Qed.

Lemma kernel_prescaled q k v d p w a cz sb g :
  size_last q = Ok (S d) ->
  flash_attn_sigmoid_func (scalar_mul q (Rpower (INR (S d)) (-0.25)))
     (scalar_mul k (Rpower (INR (S d)) (-0.25))) v (Some 1%R) p w a cz sb g
  = flash_attn_sigmoid_func q k v None p w a cz sb g.
Proof.
  unfold flash_attn_sigmoid_func, size_last. cbn [shape scalar_mul].
  destruct (shape q) as [|B [|Sq [|H [|D [|]]]]]; try reflexivity.
  destruct (shape k) as [|Bk [|Sk [|Hk [|Dk [|]]]]]; try reflexivity.
  destruct (shape v) as [|Bv [|Sv [|Hv [|Dv [|]]]]]; try reflexivity.
  cbn [last]. intros [= ->].
  destruct (negb _); [reflexivity|].
  destruct (bool_decide _); [reflexivity|].
  rewrite py_pow_neg_S, !bind_run, !lift_run.
  rewrite kernel_run_prescaled, Rpower_quarter_twice. reflexivity.
Qed.

Lemma kernel_default_scale q k v d p w a cz sb g :
  size_last q = Ok (S d) ->
  flash_attn_sigmoid_func q k v None p w a cz sb g
  = flash_attn_sigmoid_func q k v (Some (Rpower (INR (S d)) (-0.5))) p w a cz sb g.
Proof.
  unfold flash_attn_sigmoid_func, size_last.
  destruct (shape q) as [|B [|Sq [|H [|D [|]]]]]; try reflexivity.
  destruct (shape k) as [|Bk [|Sk [|Hk [|Dk [|]]]]]; try reflexivity.
  destruct (shape v) as [|Bv [|Sv [|Hv [|Dv [|]]]]]; try reflexivity.
  cbn [last]. intros [= ->]. reflexivity.
Qed.

Lemma flash2_is_reference q k v sb p w a cz prescale g :
  flash2_sigmoid_attn q k v sb p w a cz prescale g
  = reference_sigmoid_attn q k v sb p w a cz g.
Proof.
  unfold flash2_sigmoid_attn, reference_sigmoid_attn.
  rewrite !(bind_run (lift _)), !lift_run.
  destruct (size_last q) as [d|e] eqn:Hd; [|reflexivity].
  destruct d as [|d]; [reflexivity|].
  cbn [mbind result_bind]. rewrite !py_pow_neg_S.
  rewrite !bind_run.
  destruct prescale.
  - rewrite kernel_prescaled, (kernel_default_scale _ _ _ d) by assumption.
    reflexivity.
  - rewrite (kernel_default_scale _ _ _ d) by assumption. reflexivity.
Qed.

(** C3. The prescaled path (q and k each multiplied by
    [head_dim ** (-0.25)], kernel scale 1.0) and the unscaled path (kernel
    default scale) of [flash2_sigmoid_attn] return the same result on the same
    arguments and random state, and both equal the reference that scales the
    raw dot product by [head_dim ** (-0.5)]. Tensor elements are ideal reals
    here, so the two paths differ by rounding only. *)
Theorem prescale_paths_agree q k v sigmoid_bias attn_drop window_size
    alibi_slopes causal g :
  flash2_sigmoid_attn q k v sigmoid_bias attn_drop window_size alibi_slopes
    causal true g
  = flash2_sigmoid_attn q k v sigmoid_bias attn_drop window_size alibi_slopes
      causal false g
  /\ forall prescale,
      flash2_sigmoid_attn q k v sigmoid_bias attn_drop window_size alibi_slopes
        causal prescale g
      = reference_sigmoid_attn q k v sigmoid_bias attn_drop window_size
          alibi_slopes causal g.
Proof.
  split; [|intros; apply flash2_is_reference].
  rewrite !flash2_is_reference. reflexivity.
Qed.

(** ** The weights of the kernel *)

Lemma rsum_single n f j0 :
  j0 < n -> (forall j, j < n -> j <> j0 -> f j = 0%R) -> rsum n f = f j0.
Proof.
  induction n as [|n IH]; intros Hj Hz; [lia|]. simpl.
  destruct (decide (j0 = n)) as [->|Hne].
  - rewrite (rsum_ext n f (fun _ => 0%R)) by (intros; apply Hz; lia).
    assert (rsum n (fun _ => 0%R) = 0%R) as ->; [|lra].
    clear. induction n; simpl; [reflexivity|]. rewrite IHn. lra.
  - rewrite IH by (try lia; intros; apply Hz; lia).
    rewrite (Hz n) by lia. lra.
Qed.

Lemma weight_dropout_disabled g sh idx w : weight_dropout g 0 sh idx w = w.
Proof. unfold weight_dropout. destruct (Req_dec_T 0 0); [reflexivity|lra]. Qed.

Lemma flatten_heads t B N H D :
  shape t = [B; N; H; D] ->
  exists t', flatten t 2 = Ok t' /\ shape t' = [B; N; H * D] /\
    dtype t' = dtype t /\
    forall b i h d, d < D -> data t' [b; i; h * D + d] = data t [b; i; h; d].
Proof.
  intros Hs. unfold flatten. rewrite Hs. cbn [length].
  rewrite bool_decide_eq_true_2 by lia.
  eexists. split; [reflexivity|]. cbn [shape dtype data].
  split; [|split; [reflexivity|]].
  - cbn. rewrite Nat.mul_1_r. reflexivity.
  - intros b i h d Hd. cbn [firstn skipn nth unravel numel fold_right app].
    rewrite Nat.mul_1_r.
    assert (D <> 0) by lia.
    rewrite Nat.div_add_l, (Nat.div_small d D), Nat.add_0_r by lia.
    rewrite Nat.add_comm, Nat.Div0.mod_add, Nat.mod_small by lia.
    rewrite Nat.div_1_r. reflexivity.
Qed.

Lemma kernel_on_consistent_shapes q k v B Sq Sk H D scale p w a cz sb g :
  shape q = [B; Sq; H; D] -> shape k = [B; Sk; H; D] ->
  shape v = [B; Sk; H; D] -> alibi_ok a B H = true ->
  (-1 <= w.1)%Z -> (-1 <= w.2)%Z ->
  flash_attn_sigmoid_func q k v (Some scale) p w a cz sb g
  = kernel_run (mkKernelArgs q k v B Sq Sk H D scale p w a cz sb) g.
Proof.
  intros Hq Hk Hv Ha Hw1 Hw2. unfold flash_attn_sigmoid_func.
  rewrite Hq, Hk, Hv, Ha.
  rewrite bool_decide_eq_true_2 by done. cbn [negb andb].
  rewrite bool_decide_eq_false_2 by lia.
  reflexivity.
Qed.

Lemma flash2_on_consistent_shapes q k v sb p w a cz prescale g B Sq Sk H D :
  shape q = [B; Sq; H; D] -> shape k = [B; Sk; H; D] ->
  shape v = [B; Sk; H; D] -> D <> 0 -> alibi_ok a B H = true ->
  (-1 <= w.1)%Z -> (-1 <= w.2)%Z ->
  exists out,
    flash2_sigmoid_attn q k v sb p w a cz prescale g
    = Ok (out, if Req_dec_T p 0 then g else rng_skip (B * H * Sq * Sk) g)
    /\ shape out = [B; Sq; H * D] /\ dtype out = dtype q
    /\ forall b i h d, d < D ->
         data out [b; i; h * D + d]
         = attn_out (mkKernelArgs q k v B Sq Sk H D (Rpower (INR D) (-0.5))
                       p w a cz sb) g b i h d.
Proof.
  intros Hq Hk Hv HD Ha Hw1 Hw2.
  rewrite flash2_is_reference. unfold reference_sigmoid_attn.
  rewrite bind_run, lift_run, (size_last_shape4 _ _ _ _ _ Hq).
  destruct D as [|d]; [done|]. cbn [mbind result_bind].
  rewrite py_pow_neg_S, bind_run.
  rewrite (kernel_on_consistent_shapes _ _ _ B Sq Sk H (S d)) by assumption.
  unfold kernel_run at 1. cbn [kB kSq kSk kH kD kq kdropout_p].
  set (kout := mkTensor _ _ _).
  destruct (flatten_heads kout B Sq H (S d) eq_refl)
    as (out & Hf & Hsh & Hdt & Hdata).
  rewrite lift_run, Hf. exists out.
  split; [reflexivity|]. split; [assumption|]. split; [assumption|].
  intros b i h d0 Hd0. rewrite Hdata by assumption. reflexivity.
Qed.

(** C1. On q, k, v of consistent shapes, [flash2_sigmoid_attn] returns, for
    either value of [prescale], the tensor whose element for query [i] is the
    sum over the unmasked keys [j] of [weight(i, j) * v_j], where
    [weight(i, j) = sigmoid((q_i . k_j) * head_dim ** (-0.5)
    + alibi_bias(i, j) + sigmoid_bias)] (after the kernel's dropout, which is
    the identity when [attn_drop] is 0). Every weight lies strictly between 0
    and 1 and nothing normalises the weights of a query: when one key only is
    unmasked, its weight is the sigmoid of its logit, not 1. *)
Theorem sigmoid_attention_weights q k v sigmoid_bias attn_drop window_size
    alibi_slopes causal prescale g B Sq Sk H D :
  shape q = [B; Sq; H; D] -> shape k = [B; Sk; H; D] ->
  shape v = [B; Sk; H; D] -> D <> 0 ->
  alibi_ok alibi_slopes B H = true ->
  (-1 <= window_size.1)%Z -> (-1 <= window_size.2)%Z ->
  let weight b h i j :=
    sigmoid (dot_qk q k D b h i j * Rpower (INR D) (-0.5)
             + alibi_bias alibi_slopes Sq Sk b h i j + sigmoid_bias)%R in
  let is_masked i j := masked causal window_size Sq Sk i j in
  exists out g',
    flash2_sigmoid_attn q k v sigmoid_bias attn_drop window_size alibi_slopes
      causal prescale g = Ok (out, g')
    /\ shape out = [B; Sq; H * D]
    /\ (forall b h i j, (0 < weight b h i j < 1)%R)
    /\ (forall b i h d, d < D ->
          data out [b; i; h * D + d]
          = rsum Sk (fun j =>
              if is_masked i j then 0%R
              else (weight_dropout g attn_drop [B; H; Sq; Sk] [b; h; i; j]
                      (weight b h i j)
                    * data v [b; j; h; d])%R))
    /\ (attn_drop = 0%R -> forall b i h d, d < D ->
          data out [b; i; h * D + d]
          = rsum Sk (fun j =>
              if is_masked i j then 0%R
              else (weight b h i j * data v [b; j; h; d])%R))
    /\ (attn_drop = 0%R -> forall b i h d j0, d < D -> j0 < Sk ->
          is_masked i j0 = false ->
          (forall j, j < Sk -> j <> j0 -> is_masked i j = true) ->
          data out [b; i; h * D + d]
          = (weight b h i j0 * data v [b; j0; h; d])%R
          /\ weight b h i j0 <> 1%R).
Proof.
  intros Hq Hk Hv HD Ha Hw1 Hw2 weight is_masked.
  destruct (flash2_on_consistent_shapes q k v sigmoid_bias attn_drop
              window_size alibi_slopes causal prescale g B Sq Sk H D)
    as (out & Hrun & Hsh & _ & Hgen); try assumption.
  assert (Hnodrop : attn_drop = 0%R -> forall b i h d, d < D ->
            data out [b; i; h * D + d]
            = rsum Sk (fun j =>
                if is_masked i j then 0%R
                else (weight b h i j * data v [b; j; h; d])%R)).
  { intros Hp b i h d Hd. rewrite Hgen by assumption. unfold attn_out.
    apply rsum_ext; intros j _. unfold dropped_weight. cbn [kdropout_p].
    rewrite Hp, weight_dropout_disabled. reflexivity. }
  eexists out, _. split; [exact Hrun|].
  split; [assumption|]. split; [intros; apply sigmoid_bounds|].
  split; [exact Hgen|]. split; [assumption|].
  intros Hp b i h d j0 Hd Hj0 Hun Hothers. split.
  - rewrite Hnodrop by assumption.
    rewrite (rsum_single _ _ j0 Hj0).
    + rewrite Hun. reflexivity.
    + intros j Hj Hne. rewrite Hothers by assumption. reflexivity.
  - pose proof (sigmoid_bounds
                  (dot_qk q k D b h i j0 * Rpower (INR D) (-0.5)
                   + alibi_bias alibi_slopes Sq Sk b h i j0 + sigmoid_bias)).
    unfold weight. lra.
Qed.

(** ** The fused helper *)

Lemma promote_same d : promote d d = d.
Proof. destruct d; reflexivity. Qed.

Lemma bcast_index_same sh idx : in_range idx sh -> bcast_index sh idx = idx.
Proof.
  unfold bcast_index, in_range. intros H.
  rewrite (Forall2_length _ _ _ H), Nat.sub_diag. change (skipn 0 idx) with idx.
  induction H as [|i s idx sh Hlt _ IH]; [reflexivity|].
  cbn [zip_with]. rewrite IH. case_bool_decide; [|reflexivity].
  f_equal. lia.
Qed.

Lemma broadcast_rev_unit_axes a b :
  Forall2 (fun x y => y = 1 \/ y = x) a b -> broadcast_rev a b = Ok a.
Proof.
  induction 1 as [|x y a b Hxy _ IH]; [reflexivity|].
  cbn [broadcast_rev]. rewrite IH. cbn [mbind result_bind].
  repeat case_bool_decide; try reflexivity; destruct Hxy; congruence.
Qed.

Lemma fused_kernel_input_prescaled qkv B N H D :
  shape qkv = [B; N; 3; H; D] -> D <> 0 ->
  exists arg,
    fused_kernel_input qkv true = Ok arg
    /\ shape arg = shape qkv /\ dtype arg = dtype qkv
    /\ forall b n c h d,
         b < B -> n < N -> c < 3 -> h < H -> d < D ->
         data arg [b; n; c; h; d]
         = (data qkv [b; n; c; h; d] *
            (if bool_decide (c < 2)%nat then Rpower (INR D) (-0.25) else 1))%R.
Proof.
  intros Hs HD. unfold fused_kernel_input, size_last. rewrite Hs. cbn [last].
  destruct D as [|d]; [done|]. cbn [mbind result_bind].
  rewrite py_pow_neg_S. set (c0 := Rpower _ _).
  unfold imul_axis2_butlast. cbn [shape ones dtype data].
  unfold tensor_mul. cbn [shape dtype data mbind result_bind]. rewrite Hs.
  unfold broadcast_shapes. cbn [rev app].
  rewrite broadcast_rev_unit_axes by (repeat constructor; auto).
  cbn [mbind result_bind rev app]. eexists. split; [reflexivity|].
  cbn [shape dtype data]. rewrite promote_same.
  split; [reflexivity|]. split; [reflexivity|].
  intros b n c h d0 Hb HN Hc Hh Hd.
  rewrite bcast_index_same by solve_in_range.
  f_equal. cbn. rewrite (bool_decide_eq_false_2 (3 = 1)) by lia.
  case_bool_decide; [lra|reflexivity].
Qed.

(** C4. With [prescale=True], the packed tensor that
    [fused_sigmoid_flash2_attn] hands to the kernel has the shape and dtype of
    [qkv]; its V slice (index 2 of the packing axis) is the V slice of [qkv],
    unchanged, and its Q and K slices (indices 0 and 1) are those of [qkv]
    multiplied by [head_dim ** (-0.25)]. *)
Theorem fused_prescale_leaves_v qkv B N H D :
  shape qkv = [B; N; 3; H; D] -> D <> 0 ->
  exists arg,
    fused_kernel_input qkv true = Ok arg
    /\ (forall sigmoid_bias attn_drop window_size alibi_slopes causal,
          fused_sigmoid_flash2_attn qkv sigmoid_bias attn_drop window_size
            alibi_slopes causal true
          = (out ← flash_attn_sigmoid_qkvpacked_func arg (Some 1%R) attn_drop
                     causal window_size alibi_slopes sigmoid_bias;
             lift (flatten out 2)))
    /\ shape arg = shape qkv /\ dtype arg = dtype qkv
    /\ tensor_eqv (select arg 2 2) (select qkv 2 2)
    /\ tensor_eqv (select arg 2 0)
         (scalar_mul (select qkv 2 0) (Rpower (INR D) (-0.25)))
    /\ tensor_eqv (select arg 2 1)
         (scalar_mul (select qkv 2 1) (Rpower (INR D) (-0.25))).
Proof.
  intros Hs HD.
  destruct (fused_kernel_input_prescaled qkv B N H D Hs HD)
    as (arg & Harg & Hsh & Hdt & Hdata).
  exists arg. split; [assumption|].
  split.
  { intros. unfold fused_sigmoid_flash2_attn. rewrite Harg. reflexivity. }
  split; [assumption|]. split; [assumption|].
  assert (Hslice : forall c, c < 3 ->
            tensor_eqv (select arg 2 c)
              (scalar_mul (select qkv 2 c)
                 (if bool_decide (c < 2) then Rpower (INR D) (-0.25) else 1%R))).
  { intros c Hc. unfold tensor_eqv. cbn [shape dtype select scalar_mul data].
    rewrite Hsh, Hdt. split; [reflexivity|]. split; [reflexivity|].
    rewrite Hs. cbn [firstn skipn app]. intros idx Hidx. inv_range Hidx.
    cbn [firstn skipn app]. apply Hdata; assumption. }
  split; [|split].
  - destruct (Hslice 2 ltac:(lia)) as (Hsh2 & Hdt2 & Hd2).
    split; [assumption|]. split; [assumption|].
    intros idx Hidx. rewrite Hd2 by assumption.
    cbn [scalar_mul data]. rewrite bool_decide_eq_false_2 by lia. lra.
  - apply (Hslice 0). lia.
  - apply (Hslice 1). lia.
Qed.

(** ** Construction *)

Lemma nn_Dropout_valid p :
  (0 <= p <= 1)%R -> nn_Dropout p = Ok (mkDropout p true).
Proof.
  intros [H0 H1]. unfold nn_Dropout.
  destruct (Rlt_dec p 0); [lra|]. destruct (Rlt_dec 1 p); [lra|]. reflexivity.
Qed.

Lemma py_mod_nonzero a b : b <> 0%Z -> py_mod a b = Ok (a mod b)%Z.
Proof. intros H. unfold py_mod. rewrite (proj2 (Z.eqb_neq b 0) H). reflexivity. Qed.

Lemma py_floordiv_nonzero a b : b <> 0%Z -> py_floordiv a b = Ok (a / b)%Z.
Proof.
  intros H. unfold py_floordiv. rewrite (proj2 (Z.eqb_neq b 0) H). reflexivity.
Qed.

Lemma self_init_ok dim sigmoid_bias causal num_heads bias qk_norm attn_drop
    proj_drop window_size alibi_slopes norm_layer which_linear qk_transform
    which_flash_attn :
      num_heads <> 0%Z -> (dim mod num_heads = 0)%Z ->
      (0 <= proj_drop <= 1)%R ->
      succeeds (which_linear dim (dim * 3)%Z bias) ->
      succeeds (which_linear dim dim bias) ->
      (qk_norm = true -> succeeds (norm_layer (dim / num_heads)%Z)) ->
      exists layer,
        FlashSigmoidAttention.init dim sigmoid_bias causal num_heads bias
          qk_norm attn_drop proj_drop window_size alibi_slopes norm_layer
          which_linear qk_transform which_flash_attn = Ok layer
        /\ FlashSigmoidAttention.num_heads layer = num_heads
        /\ FlashSigmoidAttention.head_dim layer = (dim / num_heads)%Z
        /\ (FlashSigmoidAttention.head_dim layer * num_heads = dim)%Z.
Proof.
  intros Hh Hdiv Hp [qkv Hqkv] [proj Hproj] Hnorm.
  unfold FlashSigmoidAttention.init.
  rewrite py_mod_nonzero, py_floordiv_nonzero, Hdiv by assumption.
  cbn [mbind result_bind Z.eqb negb].
  rewrite Hqkv, Hproj, nn_Dropout_valid by assumption.
  destruct qk_norm.
  - destruct (Hnorm eq_refl) as [n Hn]. rewrite Hn. cbn [mbind result_bind].
    eexists. split; [reflexivity|]. cbn.
    split; [reflexivity|]. split; [reflexivity|].
    rewrite Z.mul_comm. symmetry. apply Z.div_exact; assumption.
  - cbn [mbind result_bind].
    eexists. split; [reflexivity|]. cbn.
    split; [reflexivity|]. split; [reflexivity|].
    rewrite Z.mul_comm. symmetry. apply Z.div_exact; assumption.
Qed.

Lemma self_init_rejects dim sigmoid_bias causal num_heads bias qk_norm
    attn_drop proj_drop window_size alibi_slopes norm_layer which_linear
    qk_transform which_flash_attn :
  (num_heads = 0%Z \/ dim mod num_heads <> 0)%Z ->
  FlashSigmoidAttention.init dim sigmoid_bias causal num_heads bias
    qk_norm attn_drop proj_drop window_size alibi_slopes norm_layer
    which_linear qk_transform which_flash_attn
  = Err (if (num_heads =? 0)%Z then ZeroDivisionError
         else AssertionError "dim should be divisible by num_heads").
Proof.
  intros H. unfold FlashSigmoidAttention.init, py_mod.
  destruct (Z.eqb_spec num_heads 0) as [->|Hh]; [reflexivity|].
  destruct H as [H|H]; [done|].
  cbn [mbind result_bind]. rewrite (proj2 (Z.eqb_neq _ 0) H). reflexivity.
Qed.

Lemma cross_init_ok q_dim kv_dim sigmoid_bias causal num_heads bias qk_norm
    attn_drop proj_drop window_size alibi_slopes norm_layer which_linear
    qk_transform which_flash_attn :
  num_heads <> 0%Z ->
  (q_dim mod num_heads = 0)%Z -> (kv_dim mod num_heads = 0)%Z ->
  (0 <= proj_drop <= 1)%R ->
  succeeds (which_linear q_dim q_dim bias) ->
  succeeds (which_linear kv_dim (kv_dim * 2)%Z bias) ->
  succeeds (which_linear kv_dim q_dim bias) ->
  (qk_norm = true -> succeeds (norm_layer (q_dim / num_heads)%Z)) ->
  succeeds (norm_layer (kv_dim / num_heads)%Z) ->
  exists layer,
    FlashSigmoidCrossAttention.init q_dim kv_dim sigmoid_bias causal num_heads
      bias qk_norm attn_drop proj_drop window_size alibi_slopes norm_layer
      which_linear qk_transform which_flash_attn = Ok layer
    /\ FlashSigmoidCrossAttention.num_heads layer = num_heads
    /\ FlashSigmoidCrossAttention.head_dim_q layer = (q_dim / num_heads)%Z
    /\ FlashSigmoidCrossAttention.head_dim_kv layer = (kv_dim / num_heads)%Z
    /\ FlashSigmoidCrossAttention.which_flash_attn layer = which_flash_attn
    /\ FlashSigmoidCrossAttention.qk_transform layer = qk_transform
    /\ FlashSigmoidCrossAttention.qk_norm layer = qk_norm.
Proof.
  intros Hh Hq Hkv Hp [qp Hqp] [kvp Hkvp] [pr Hpr] Hqn [vn Hvn].
  unfold FlashSigmoidCrossAttention.init.
  rewrite !py_mod_nonzero, !py_floordiv_nonzero, Hq by assumption.
  cbn [mbind result_bind Z.eqb]. rewrite Hkv. cbn [mbind result_bind Z.eqb negb].
  rewrite Hqp, Hkvp, Hpr, Hvn, nn_Dropout_valid by assumption.
  destruct qk_norm.
  - destruct (Hqn eq_refl) as [qn Hqn']. rewrite Hqn'. cbn [mbind result_bind].
    eexists. split; [reflexivity|]. cbn. repeat split.
  - cbn [mbind result_bind].
    eexists. split; [reflexivity|]. cbn. repeat split.
Qed.

Lemma cross_init_rejects q_dim kv_dim sigmoid_bias causal num_heads bias
    qk_norm attn_drop proj_drop window_size alibi_slopes norm_layer
    which_linear qk_transform which_flash_attn :
  (num_heads = 0 \/ q_dim mod num_heads <> 0 \/ kv_dim mod num_heads <> 0)%Z ->
  FlashSigmoidCrossAttention.init q_dim kv_dim sigmoid_bias causal num_heads
    bias qk_norm attn_drop proj_drop window_size alibi_slopes norm_layer
    which_linear qk_transform which_flash_attn
  = Err (if (num_heads =? 0)%Z then ZeroDivisionError
         else AssertionError "Dimensions should be divisible by num_heads").
Proof.
  intros H. unfold FlashSigmoidCrossAttention.init, py_mod.
  destruct (Z.eqb_spec num_heads 0) as [->|Hh]; [reflexivity|].
  destruct H as [H|H]; [done|].
  cbn [mbind result_bind].
  destruct (Z.eqb_spec (q_dim mod num_heads) 0) as [Hq|Hq]; [|reflexivity].
  destruct H as [H|H]; [done|].
  cbn [mbind result_bind]. rewrite (proj2 (Z.eqb_neq _ 0) H). reflexivity.
Qed.

(** C5. Construction validates divisibility. For the self-attention layer: if
    [dim % num_heads == 0] (and the dropout probability is one and the
    sub-layer factories return), [__init__] returns a layer with
    [head_dim = dim // num_heads]; if the pair violates divisibility,
    [__init__] itself raises, whatever the factories do, the failed assertion
    (the division by zero of the modulo when [num_heads] is 0), so no layer
    exists whose forward could fail later. For the cross-attention layer
    [__init__] raises in the same way unless both [q_dim] and [kv_dim] are
    divisible by [num_heads], and returns a layer when both are. *)
Theorem construction_requires_divisibility
    sigmoid_bias causal num_heads bias qk_norm attn_drop proj_drop window_size
    alibi_slopes norm_layer which_linear qk_transform which_flash_attn :
  (forall dim,
     let init := FlashSigmoidAttention.init dim sigmoid_bias causal num_heads
       bias qk_norm attn_drop proj_drop window_size alibi_slopes norm_layer
       which_linear qk_transform which_flash_attn in
     (num_heads <> 0%Z -> (dim mod num_heads = 0)%Z ->
      (0 <= proj_drop <= 1)%R ->
      succeeds (which_linear dim (dim * 3)%Z bias) ->
      succeeds (which_linear dim dim bias) ->
      (qk_norm = true -> succeeds (norm_layer (dim / num_heads)%Z)) ->
      exists layer,
        init = Ok layer
        /\ FlashSigmoidAttention.num_heads layer = num_heads
        /\ FlashSigmoidAttention.head_dim layer = (dim / num_heads)%Z
        /\ (FlashSigmoidAttention.head_dim layer * num_heads = dim)%Z)
     /\ ((num_heads = 0 \/ dim mod num_heads <> 0)%Z ->
         init = Err (if (num_heads =? 0)%Z then ZeroDivisionError
                     else AssertionError "dim should be divisible by num_heads")))
  /\ (forall q_dim kv_dim,
        let init := FlashSigmoidCrossAttention.init q_dim kv_dim sigmoid_bias
          causal num_heads bias qk_norm attn_drop proj_drop window_size
          alibi_slopes norm_layer which_linear qk_transform which_flash_attn in
        (num_heads <> 0%Z ->
         (q_dim mod num_heads = 0)%Z -> (kv_dim mod num_heads = 0)%Z ->
         (0 <= proj_drop <= 1)%R ->
         succeeds (which_linear q_dim q_dim bias) ->
         succeeds (which_linear kv_dim (kv_dim * 2)%Z bias) ->
         succeeds (which_linear kv_dim q_dim bias) ->
         (qk_norm = true -> succeeds (norm_layer (q_dim / num_heads)%Z)) ->
         succeeds (norm_layer (kv_dim / num_heads)%Z) ->
         exists layer,
           init = Ok layer
           /\ FlashSigmoidCrossAttention.head_dim_q layer = (q_dim / num_heads)%Z
           /\ FlashSigmoidCrossAttention.head_dim_kv layer = (kv_dim / num_heads)%Z)
        /\ ((num_heads = 0 \/ q_dim mod num_heads <> 0
             \/ kv_dim mod num_heads <> 0)%Z ->
            init = Err (if (num_heads =? 0)%Z then ZeroDivisionError
                        else AssertionError
                               "Dimensions should be divisible by num_heads"))).
Proof.
  split; intros; subst init; split.
  - intros. apply self_init_ok; assumption.
  - apply self_init_rejects.
  - intros.
    destruct (cross_init_ok q_dim kv_dim sigmoid_bias causal num_heads bias
                qk_norm attn_drop proj_drop window_size alibi_slopes
                norm_layer which_linear qk_transform which_flash_attn)
      as (layer & Hl & _ & Hq & Hkv & _); try assumption.
    exists layer. auto.
  - apply cross_init_rejects.
Qed.

(** ** The steps of [forward] *)

Lemma self_attn_call_steps self x c :
  FlashSigmoidAttention.attn_call self x = Ok c <->
  exists q0 k0 v qn kn q' k',
    FlashSigmoidAttention.project_qkv self x = Ok (q0, k0, v)
    /\ FlashSigmoidAttention.q_norm self q0 = Ok qn
    /\ FlashSigmoidAttention.k_norm self k0 = Ok kn
    /\ match FlashSigmoidAttention.qk_transform self with
       | Some xf => xf qn kn 0%Z 0%Z
       | None => Ok (qn, kn)
       end = Ok (q', k')
    /\ c = mkAttnCall (to q' (dtype v)) (to k' (dtype v)) v
             (FlashSigmoidAttention.attn_drop self)
             (FlashSigmoidAttention.causal self)
             (FlashSigmoidAttention.window_size self)
             (FlashSigmoidAttention.alibi_slopes self)
             (FlashSigmoidAttention.sigmoid_bias self).
Proof.
  unfold FlashSigmoidAttention.attn_call. split.
  - intros H. inv_bind H. injection H as <-.
    repeat eexists; eassumption.
  - intros (q0 & k0 & v & qn & kn & q' & k' & Hp & Hq & Hk & Hx & ->).
    rewrite Hp. cbn [mbind result_bind]. rewrite Hq. cbn [mbind result_bind].
    rewrite Hk. cbn [mbind result_bind]. rewrite Hx. reflexivity.
Qed.

Lemma cross_attn_call_steps self q kv c :
  FlashSigmoidCrossAttention.attn_call self q kv = Ok c <->
  exists q0 k0 v0 qn kn v q' k',
    FlashSigmoidCrossAttention.project_q_kv self q kv = Ok (q0, k0, v0)
    /\ FlashSigmoidCrossAttention.q_norm self q0 = Ok qn
    /\ FlashSigmoidCrossAttention.k_norm self k0 = Ok kn
    /\ FlashSigmoidCrossAttention.v_norm self v0 = Ok v
    /\ match FlashSigmoidCrossAttention.qk_transform self with
       | Some xf => xf qn kn 0%Z 0%Z
       | None => Ok (qn, kn)
       end = Ok (q', k')
    /\ c = mkAttnCall (to q' (dtype v)) (to k' (dtype v)) v
             (FlashSigmoidCrossAttention.attn_drop self)
             (FlashSigmoidCrossAttention.causal self)
             (FlashSigmoidCrossAttention.window_size self)
             (FlashSigmoidCrossAttention.alibi_slopes self)
             (FlashSigmoidCrossAttention.sigmoid_bias self).
Proof.
  unfold FlashSigmoidCrossAttention.attn_call. split.
  - intros H. inv_bind H. injection H as <-.
    repeat eexists; eassumption.
  - intros (q0 & k0 & v0 & qn & kn & v & q' & k' & Hp & Hq & Hk & Hv & Hx & ->).
    rewrite Hp. cbn [mbind result_bind]. rewrite Hq. cbn [mbind result_bind].
    rewrite Hk. cbn [mbind result_bind]. rewrite Hv. cbn [mbind result_bind].
    rewrite Hx. reflexivity.
Qed.

Lemma dict_update_empty (e : gmap string Tensor) : dict_update ∅ e = e.
Proof. unfold dict_update. apply (right_id ∅ (∪)). Qed.

Lemma self_forward_run x kw self g :
  FlashSigmoidAttention.forward x kw (mkLayerState self g)
  = match FlashSigmoidAttention.attn_call self x with
    | Err e => Err e
    | Ok c =>
        match FlashSigmoidAttention.which_flash_attn self c g with
        | Err e => Err e
        | Ok (atv, g1) =>
            match FlashSigmoidAttention.proj self atv with
            | Err e => Err e
            | Ok y =>
                match Dropout_forward
                        (FlashSigmoidAttention.proj_drop self) y g1 with
                | Err e => Err e
                | Ok (fp, g2) =>
                    Ok (<["attn_times_v" := atv]> (<["attn_proj" := fp]> ∅),
                        mkLayerState self g2)
                end
            end
        end
    end.
Proof.
  unfold FlashSigmoidAttention.forward.
  rewrite bind_run. unfold get_self at 1. cbn [st_self].
  rewrite bind_run, lift_run.
  destruct (FlashSigmoidAttention.attn_call self x) as [c|e]; [|reflexivity].
  rewrite bind_run. unfold with_rng at 1. cbn [st_self st_rng].
  destruct (FlashSigmoidAttention.which_flash_attn self c g) as [[atv g1]|e];
    [|reflexivity].
  rewrite bind_run, lift_run.
  destruct (FlashSigmoidAttention.proj self atv) as [y|e]; [|reflexivity].
  rewrite bind_run. unfold with_rng at 1. cbn [st_self st_rng].
  destruct (Dropout_forward _ y g1) as [[fp g2]|e]; [|reflexivity].
  rewrite dict_update_empty. reflexivity.
Qed.

Lemma cross_forward_run q kv kw self g :
  FlashSigmoidCrossAttention.forward q kv kw (mkLayerState self g)
  = match FlashSigmoidCrossAttention.attn_call self q kv with
    | Err e => Err e
    | Ok c =>
        match FlashSigmoidCrossAttention.which_flash_attn self c g with
        | Err e => Err e
        | Ok (atv, g1) =>
            match FlashSigmoidCrossAttention.proj self atv with
            | Err e => Err e
            | Ok y =>
                match Dropout_forward
                        (FlashSigmoidCrossAttention.proj_drop self) y g1 with
                | Err e => Err e
                | Ok (fp, g2) =>
                    Ok (<["attn_times_v" := atv]> (<["attn_proj" := fp]> ∅),
                        mkLayerState self g2)
                end
            end
        end
    end.
Proof.
  unfold FlashSigmoidCrossAttention.forward.
  rewrite bind_run. unfold get_self at 1. cbn [st_self].
  rewrite bind_run, lift_run.
  destruct (FlashSigmoidCrossAttention.attn_call self q kv) as [c|e];
    [|reflexivity].
  rewrite bind_run. unfold with_rng at 1. cbn [st_self st_rng].
  destruct (FlashSigmoidCrossAttention.which_flash_attn self c g)
    as [[atv g1]|e]; [|reflexivity].
  rewrite bind_run, lift_run.
  destruct (FlashSigmoidCrossAttention.proj self atv) as [y|e]; [|reflexivity].
  rewrite bind_run. unfold with_rng at 1. cbn [st_self st_rng].
  destruct (Dropout_forward _ y g1) as [[fp g2]|e]; [|reflexivity].
  rewrite dict_update_empty. reflexivity.
Qed.

Lemma output_record_fields (atv fp : Tensor) :
  let out : gmap string Tensor :=
    <["attn_times_v" := atv]> (<["attn_proj" := fp]> ∅) in
  dom out = ({["attn_times_v"; "attn_proj"]} : gset string)
  /\ size out = 2
  /\ out !! "attn_times_v" = Some atv
  /\ out !! "attn_proj" = Some fp.
Proof.
  cbn zeta. split; [|split; [|split]].
  - rewrite !dom_insert_L, dom_empty_L. set_solver.
  - rewrite map_size_insert_None, map_size_insert_None, map_size_empty;
      [reflexivity| |]; by simplify_map_eq.
  - by simplify_map_eq.
  - by simplify_map_eq.
Qed.

(** C9. A [forward] call of either layer that returns, returns a mapping with
    exactly the two fields [attn_times_v] and [attn_proj]: [attn_times_v] is
    what [which_flash_attn] returned, before the output projection, and
    [attn_proj] is [proj_drop(proj(attn_times_v))]. The layer object is the
    same after the call as before: no attribute holds the record. Conversely
    the call returns whenever these steps do. *)
Theorem forward_output_record :
  (forall x kw self g out st',
     FlashSigmoidAttention.forward x kw (mkLayerState self g) = Ok (out, st')
     <-> exists c atv g1 y fp g2,
         FlashSigmoidAttention.attn_call self x = Ok c
         /\ FlashSigmoidAttention.which_flash_attn self c g = Ok (atv, g1)
         /\ FlashSigmoidAttention.proj self atv = Ok y
         /\ Dropout_forward (FlashSigmoidAttention.proj_drop self) y g1
            = Ok (fp, g2)
         /\ dom out = ({["attn_times_v"; "attn_proj"]} : gset string)
         /\ out !! "attn_times_v" = Some atv
         /\ out !! "attn_proj" = Some fp
         /\ st' = mkLayerState self g2)
  /\ (forall q kv kw self g out st',
        FlashSigmoidCrossAttention.forward q kv kw (mkLayerState self g)
        = Ok (out, st')
        <-> exists c atv g1 y fp g2,
            FlashSigmoidCrossAttention.attn_call self q kv = Ok c
            /\ FlashSigmoidCrossAttention.which_flash_attn self c g
               = Ok (atv, g1)
            /\ FlashSigmoidCrossAttention.proj self atv = Ok y
            /\ Dropout_forward (FlashSigmoidCrossAttention.proj_drop self) y g1
               = Ok (fp, g2)
            /\ dom out = ({["attn_times_v"; "attn_proj"]} : gset string)
            /\ out !! "attn_times_v" = Some atv
            /\ out !! "attn_proj" = Some fp
            /\ st' = mkLayerState self g2).
Proof.
  assert (Hrec : forall (out : gmap string Tensor) atv fp,
            dom out = ({["attn_times_v"; "attn_proj"]} : gset string) ->
            out !! "attn_times_v" = Some atv -> out !! "attn_proj" = Some fp ->
            out = <["attn_times_v" := atv]> (<["attn_proj" := fp]> ∅)).
  { intros out atv fp Hdom Ha Hp. apply map_eq. intros key.
    destruct (decide (key = "attn_times_v")) as [->|Hna];
      [by simplify_map_eq|].
    destruct (decide (key = "attn_proj")) as [->|Hnp];
      [by simplify_map_eq|].
    rewrite !lookup_insert_ne, lookup_empty by done.
    apply not_elem_of_dom. rewrite Hdom.
    rewrite not_elem_of_union, !not_elem_of_singleton. done. }
  split.
  - intros x kw self g out st'. rewrite self_forward_run. split.
    + intros H. inv_bind H. injection H as <- <-.
      destruct (output_record_fields t t0) as (Hd & _ & Ha & Hp).
      repeat eexists; eassumption.
    + intros (c & atv & g1 & y & fp & g2 & Hc & Hk & Hy & Hf & Hd & Ha & Hp & ->).
      rewrite Hc, Hk, Hy, Hf. rewrite (Hrec out atv fp) by assumption.
      reflexivity.
  - intros q kv kw self g out st'. rewrite cross_forward_run. split.
    + intros H. inv_bind H. injection H as <- <-.
      destruct (output_record_fields t t0) as (Hd & _ & Ha & Hp).
      repeat eexists; eassumption.
    + intros (c & atv & g1 & y & fp & g2 & Hc & Hk & Hy & Hf & Hd & Ha & Hp & ->).
      rewrite Hc, Hk, Hy, Hf. rewrite (Hrec out atv fp) by assumption.
      reflexivity.
Qed.

(** C10. The extra keyword arguments of [forward] are accepted and ignored by
    both layers: on the same input, layer and random state, a call with
    extras has the result (output record, final state, or exception) of the
    call without them. *)
Theorem forward_ignores_extra_kwargs :
  (forall x (unused_kwargs : gmap string PyValue) st,
     FlashSigmoidAttention.forward x unused_kwargs st
     = FlashSigmoidAttention.forward x ∅ st)
  /\ (forall q kv (unused_kwargs : gmap string PyValue) st,
        FlashSigmoidCrossAttention.forward q kv unused_kwargs st
        = FlashSigmoidCrossAttention.forward q kv ∅ st).
Proof. split; reflexivity. Qed.

(** ** What reaches the kernel *)

Lemma self_project_qkv_norm_free self qn kn x :
  FlashSigmoidAttention.project_qkv
    (FlashSigmoidAttention.set_qk_norms self qn kn) x
  = FlashSigmoidAttention.project_qkv self x.
Proof. reflexivity. Qed.

(** C2. In [FlashSigmoidAttention.forward] the V handed to the kernel is the V
    slice of the fused projection itself: it is the same whatever the
    normalization sub-modules are, also for a layer built with
    [qk_norm=True], whose [q_norm] and [k_norm] (and nothing else) come from
    [norm_layer]. In [FlashSigmoidCrossAttention.forward] the V handed to the
    kernel is [v_norm] applied to the V slice, and [v_norm] is
    [norm_layer(head_dim_kv)] for either value of [qk_norm]. *)
Theorem v_normalization_asymmetry :
  (forall self x c,
     FlashSigmoidAttention.attn_call self x = Ok c ->
     exists q0 k0,
       FlashSigmoidAttention.project_qkv self x = Ok (q0, k0, arg_v c))
  /\ (forall self x qn kn c c',
        FlashSigmoidAttention.attn_call self x = Ok c ->
        FlashSigmoidAttention.attn_call
          (FlashSigmoidAttention.set_qk_norms self qn kn) x = Ok c' ->
        arg_v c' = arg_v c)
  /\ (forall dim sigmoid_bias causal num_heads bias attn_drop proj_drop
             window_size alibi_slopes norm_layer which_linear qk_transform
             which_flash_attn layer,
        FlashSigmoidAttention.init dim sigmoid_bias causal num_heads bias true
          attn_drop proj_drop window_size alibi_slopes norm_layer which_linear
          qk_transform which_flash_attn = Ok layer ->
        norm_layer (FlashSigmoidAttention.head_dim layer)
        = Ok (FlashSigmoidAttention.q_norm layer)
        /\ norm_layer (FlashSigmoidAttention.head_dim layer)
           = Ok (FlashSigmoidAttention.k_norm layer))
  /\ (forall self q kv c,
        FlashSigmoidCrossAttention.attn_call self q kv = Ok c ->
        exists q0 k0 v0,
          FlashSigmoidCrossAttention.project_q_kv self q kv = Ok (q0, k0, v0)
          /\ FlashSigmoidCrossAttention.v_norm self v0 = Ok (arg_v c))
  /\ (forall q_dim kv_dim sigmoid_bias causal num_heads bias qk_norm attn_drop
             proj_drop window_size alibi_slopes norm_layer which_linear
             qk_transform which_flash_attn layer,
        FlashSigmoidCrossAttention.init q_dim kv_dim sigmoid_bias causal
          num_heads bias qk_norm attn_drop proj_drop window_size alibi_slopes
          norm_layer which_linear qk_transform which_flash_attn = Ok layer ->
        norm_layer (FlashSigmoidCrossAttention.head_dim_kv layer)
        = Ok (FlashSigmoidCrossAttention.v_norm layer)).
Proof.
  split; [|split; [|split; [|split]]].
  - intros self x c (q0 & k0 & v & qn & kn & q' & k' & Hp & _ & _ & _ & ->)
      %self_attn_call_steps.
    exists q0, k0. exact Hp.
  - intros self x qn kn c c'
      (q0 & k0 & v & ? & ? & ? & ? & Hp & _ & _ & _ & ->)%self_attn_call_steps
      (q1 & k1 & v1 & ? & ? & ? & ? & Hp1 & _ & _ & _ & ->)%self_attn_call_steps.
    rewrite self_project_qkv_norm_free, Hp in Hp1.
    injection Hp1 as _ _ Hv. cbn [arg_v]. congruence.
  - intros until layer. unfold FlashSigmoidAttention.init. intros H.
    inv_bind H. destruct (negb _); [discriminate H|].
    inv_bind H. injection H as <-. cbn. split; assumption.
  - intros self q kv c
      (q0 & k0 & v0 & qn & kn & v & q' & k' & Hp & _ & _ & Hv & _ & ->)
      %cross_attn_call_steps.
    exists q0, k0, v0. split; assumption.
  - intros until layer. unfold FlashSigmoidCrossAttention.init. intros H.
    inv_bind H. destruct (negb _); [discriminate H|].
    inv_bind H. injection H as <-. cbn. assumption.
Qed.

(** C7. In both layers' [forward], the q and k handed to the kernel are the
    results of normalization followed by the optional positional transform,
    cast to the dtype of the v handed to the kernel; so q, k and v reach the
    kernel at v's dtype. The v handed to the kernel is the v the earlier steps
    produced (the V slice in self-attention, [v_norm] of it in
    cross-attention), with no cast applied to it. *)
Theorem qk_cast_to_v_dtype :
  (forall self x c,
     FlashSigmoidAttention.attn_call self x = Ok c ->
     exists q0 k0 qn kn q' k',
       FlashSigmoidAttention.project_qkv self x = Ok (q0, k0, arg_v c)
       /\ FlashSigmoidAttention.q_norm self q0 = Ok qn
       /\ FlashSigmoidAttention.k_norm self k0 = Ok kn
       /\ match FlashSigmoidAttention.qk_transform self with
          | Some xf => xf qn kn 0%Z 0%Z
          | None => Ok (qn, kn)
          end = Ok (q', k')
       /\ arg_q c = to q' (dtype (arg_v c))
       /\ arg_k c = to k' (dtype (arg_v c))
       /\ dtype (arg_q c) = dtype (arg_v c)
       /\ dtype (arg_k c) = dtype (arg_v c))
  /\ (forall self q kv c,
        FlashSigmoidCrossAttention.attn_call self q kv = Ok c ->
        exists q0 k0 v0 qn kn q' k',
          FlashSigmoidCrossAttention.project_q_kv self q kv = Ok (q0, k0, v0)
          /\ FlashSigmoidCrossAttention.q_norm self q0 = Ok qn
          /\ FlashSigmoidCrossAttention.k_norm self k0 = Ok kn
          /\ FlashSigmoidCrossAttention.v_norm self v0 = Ok (arg_v c)
          /\ match FlashSigmoidCrossAttention.qk_transform self with
             | Some xf => xf qn kn 0%Z 0%Z
             | None => Ok (qn, kn)
             end = Ok (q', k')
          /\ arg_q c = to q' (dtype (arg_v c))
          /\ arg_k c = to k' (dtype (arg_v c))
          /\ dtype (arg_q c) = dtype (arg_v c)
          /\ dtype (arg_k c) = dtype (arg_v c)).
Proof.
  split.
  - intros self x c
      (q0 & k0 & v & qn & kn & q' & k' & Hp & Hq & Hk & Hx & ->)
      %self_attn_call_steps.
    exists q0, k0, qn, kn, q', k'. cbn [arg_q arg_k arg_v to dtype].
    repeat split; assumption.
  - intros self q kv c
      (q0 & k0 & v0 & qn & kn & v & q' & k' & Hp & Hq & Hk & Hv & Hx & ->)
      %cross_attn_call_steps.
    exists q0, k0, v0, qn, kn, q', k'. cbn [arg_q arg_k arg_v to dtype].
    repeat split; assumption.
Qed.

Lemma self_attn_call_transform_ext self x (xf xf' : QKTransform) :
  (forall q k, xf q k 0%Z 0%Z = xf' q k 0%Z 0%Z) ->
  FlashSigmoidAttention.attn_call
    (FlashSigmoidAttention.set_qk_transform self (Some xf)) x
  = FlashSigmoidAttention.attn_call
      (FlashSigmoidAttention.set_qk_transform self (Some xf')) x.
Proof.
  intros Hext. unfold FlashSigmoidAttention.attn_call.
  change (FlashSigmoidAttention.project_qkv
            (FlashSigmoidAttention.set_qk_transform self (Some xf)) x)
    with (FlashSigmoidAttention.project_qkv self x).
  change (FlashSigmoidAttention.project_qkv
            (FlashSigmoidAttention.set_qk_transform self (Some xf')) x)
    with (FlashSigmoidAttention.project_qkv self x).
  destruct (FlashSigmoidAttention.project_qkv self x) as [[[q0 k0] v]|e];
    [|reflexivity].
  cbn. destruct (FlashSigmoidAttention.q_norm self q0) as [qn|e]; [|reflexivity].
  cbn. destruct (FlashSigmoidAttention.k_norm self k0) as [kn|e]; [|reflexivity].
  cbn. rewrite Hext. reflexivity.
Qed.

Lemma self_attn_call_transform_absent self x :
  FlashSigmoidAttention.attn_call
    (FlashSigmoidAttention.set_qk_transform self None) x
  = FlashSigmoidAttention.attn_call
      (FlashSigmoidAttention.set_qk_transform self (Some identity_transform)) x.
Proof. reflexivity. Qed.

Lemma cross_attn_call_transform_ext self q kv (xf xf' : QKTransform) :
  (forall q k, xf q k 0%Z 0%Z = xf' q k 0%Z 0%Z) ->
  FlashSigmoidCrossAttention.attn_call
    (FlashSigmoidCrossAttention.set_qk_transform self (Some xf)) q kv
  = FlashSigmoidCrossAttention.attn_call
      (FlashSigmoidCrossAttention.set_qk_transform self (Some xf')) q kv.
Proof.
  intros Hext. unfold FlashSigmoidCrossAttention.attn_call.
  change (FlashSigmoidCrossAttention.project_q_kv
            (FlashSigmoidCrossAttention.set_qk_transform self (Some xf)) q kv)
    with (FlashSigmoidCrossAttention.project_q_kv self q kv).
  change (FlashSigmoidCrossAttention.project_q_kv
            (FlashSigmoidCrossAttention.set_qk_transform self (Some xf')) q kv)
    with (FlashSigmoidCrossAttention.project_q_kv self q kv).
  destruct (FlashSigmoidCrossAttention.project_q_kv self q kv)
    as [[[q0 k0] v0]|e]; [|reflexivity].
  cbn. destruct (FlashSigmoidCrossAttention.q_norm self q0) as [qn|e];
    [|reflexivity].
  cbn. destruct (FlashSigmoidCrossAttention.k_norm self k0) as [kn|e];
    [|reflexivity].
  cbn. destruct (FlashSigmoidCrossAttention.v_norm self v0) as [v|e];
    [|reflexivity].
  cbn. rewrite Hext. reflexivity.
Qed.

Lemma cross_attn_call_transform_absent self q kv :
  FlashSigmoidCrossAttention.attn_call
    (FlashSigmoidCrossAttention.set_qk_transform self None) q kv
  = FlashSigmoidCrossAttention.attn_call
      (FlashSigmoidCrossAttention.set_qk_transform self
         (Some identity_transform)) q kv.
Proof. reflexivity. Qed.

Lemma self_observe_forward x kw self self' g :
  FlashSigmoidAttention.attn_call self x
  = FlashSigmoidAttention.attn_call self' x ->
  FlashSigmoidAttention.which_flash_attn self
  = FlashSigmoidAttention.which_flash_attn self' ->
  FlashSigmoidAttention.proj self = FlashSigmoidAttention.proj self' ->
  FlashSigmoidAttention.proj_drop self = FlashSigmoidAttention.proj_drop self' ->
  observe (FlashSigmoidAttention.forward x kw (mkLayerState self g))
  = observe (FlashSigmoidAttention.forward x kw (mkLayerState self' g)).
Proof.
  intros Hc Hk Hp Hd. rewrite !self_forward_run, Hc, Hk, Hp, Hd.
  destruct (FlashSigmoidAttention.attn_call self' x) as [c|e]; [|reflexivity].
  destruct (FlashSigmoidAttention.which_flash_attn self' c g) as [[atv g1]|e];
    [|reflexivity].
  destruct (FlashSigmoidAttention.proj self' atv) as [y|e]; [|reflexivity].
  destruct (Dropout_forward _ y g1) as [[fp g2]|e]; reflexivity.
Qed.

Lemma cross_observe_forward q kv kw self self' g :
  FlashSigmoidCrossAttention.attn_call self q kv
  = FlashSigmoidCrossAttention.attn_call self' q kv ->
  FlashSigmoidCrossAttention.which_flash_attn self
  = FlashSigmoidCrossAttention.which_flash_attn self' ->
  FlashSigmoidCrossAttention.proj self = FlashSigmoidCrossAttention.proj self' ->
  FlashSigmoidCrossAttention.proj_drop self
  = FlashSigmoidCrossAttention.proj_drop self' ->
  observe (FlashSigmoidCrossAttention.forward q kv kw (mkLayerState self g))
  = observe (FlashSigmoidCrossAttention.forward q kv kw (mkLayerState self' g)).
Proof.
  intros Hc Hk Hp Hd. rewrite !cross_forward_run, Hc, Hk, Hp, Hd.
  destruct (FlashSigmoidCrossAttention.attn_call self' q kv) as [c|e];
    [|reflexivity].
  destruct (FlashSigmoidCrossAttention.which_flash_attn self' c g)
    as [[atv g1]|e]; [|reflexivity].
  destruct (FlashSigmoidCrossAttention.proj self' atv) as [y|e]; [|reflexivity].
  destruct (Dropout_forward _ y g1) as [[fp g2]|e]; reflexivity.
Qed.

(** C8. In both layers' [forward], a configured [qk_transform] is applied to
    the normalized (q, k) with [q_pos_offset=0] and [k_pos_offset=0], and its
    results are what is cast and handed to the kernel: the call observes the
    transform at offsets (0, 0) only. When no transform is configured the
    normalized q and k go on unchanged, as with the identity transform. *)
Theorem qk_transform_at_offset_zero :
  (forall self x c,
     FlashSigmoidAttention.attn_call self x = Ok c ->
     exists q0 k0 qn kn,
       FlashSigmoidAttention.project_qkv self x = Ok (q0, k0, arg_v c)
       /\ FlashSigmoidAttention.q_norm self q0 = Ok qn
       /\ FlashSigmoidAttention.k_norm self k0 = Ok kn
       /\ match FlashSigmoidAttention.qk_transform self with
          | Some xf =>
              exists q' k', xf qn kn 0%Z 0%Z = Ok (q', k')
                /\ arg_q c = to q' (dtype (arg_v c))
                /\ arg_k c = to k' (dtype (arg_v c))
          | None =>
              arg_q c = to qn (dtype (arg_v c))
              /\ arg_k c = to kn (dtype (arg_v c))
          end)
  /\ (forall self x kw g (xf xf' : QKTransform),
        (forall q k, xf q k 0%Z 0%Z = xf' q k 0%Z 0%Z) ->
        observe (FlashSigmoidAttention.forward x kw
                   (mkLayerState
                      (FlashSigmoidAttention.set_qk_transform self (Some xf)) g))
        = observe (FlashSigmoidAttention.forward x kw
                     (mkLayerState
                        (FlashSigmoidAttention.set_qk_transform self (Some xf'))
                        g)))
  /\ (forall self x kw g,
        observe (FlashSigmoidAttention.forward x kw
                   (mkLayerState
                      (FlashSigmoidAttention.set_qk_transform self None) g))
        = observe (FlashSigmoidAttention.forward x kw
                     (mkLayerState
                        (FlashSigmoidAttention.set_qk_transform self
                           (Some identity_transform)) g)))
  /\ (forall self q kv c,
        FlashSigmoidCrossAttention.attn_call self q kv = Ok c ->
        exists q0 k0 v0 qn kn,
          FlashSigmoidCrossAttention.project_q_kv self q kv = Ok (q0, k0, v0)
          /\ FlashSigmoidCrossAttention.q_norm self q0 = Ok qn
          /\ FlashSigmoidCrossAttention.k_norm self k0 = Ok kn
          /\ FlashSigmoidCrossAttention.v_norm self v0 = Ok (arg_v c)
          /\ match FlashSigmoidCrossAttention.qk_transform self with
             | Some xf =>
                 exists q' k', xf qn kn 0%Z 0%Z = Ok (q', k')
                   /\ arg_q c = to q' (dtype (arg_v c))
                   /\ arg_k c = to k' (dtype (arg_v c))
             | None =>
                 arg_q c = to qn (dtype (arg_v c))
                 /\ arg_k c = to kn (dtype (arg_v c))
             end)
  /\ (forall self q kv kw g (xf xf' : QKTransform),
        (forall q k, xf q k 0%Z 0%Z = xf' q k 0%Z 0%Z) ->
        observe (FlashSigmoidCrossAttention.forward q kv kw
                   (mkLayerState
                      (FlashSigmoidCrossAttention.set_qk_transform self
                         (Some xf)) g))
        = observe (FlashSigmoidCrossAttention.forward q kv kw
                     (mkLayerState
                        (FlashSigmoidCrossAttention.set_qk_transform self
                           (Some xf')) g)))
  /\ (forall self q kv kw g,
        observe (FlashSigmoidCrossAttention.forward q kv kw
                   (mkLayerState
                      (FlashSigmoidCrossAttention.set_qk_transform self None) g))
        = observe (FlashSigmoidCrossAttention.forward q kv kw
                     (mkLayerState
                        (FlashSigmoidCrossAttention.set_qk_transform self
                           (Some identity_transform)) g))).
Proof.
  split; [|split; [|split; [|split; [|split]]]].
  - intros self x c
      (q0 & k0 & v & qn & kn & q' & k' & Hp & Hq & Hk & Hx & ->)
      %self_attn_call_steps.
    exists q0, k0, qn, kn. cbn [arg_q arg_k arg_v].
    repeat (split; [assumption|]).
    destruct (FlashSigmoidAttention.qk_transform self) as [xf|].
    + exists q', k'. auto.
    + injection Hx as <- <-. auto.
  - intros self x kw g xf xf' Hext. apply self_observe_forward;
      [apply self_attn_call_transform_ext; assumption | reflexivity..].
  - intros self x kw g. apply self_observe_forward;
      [apply self_attn_call_transform_absent | reflexivity..].
  - intros self q kv c
      (q0 & k0 & v0 & qn & kn & v & q' & k' & Hp & Hq & Hk & Hv & Hx & ->)
      %cross_attn_call_steps.
    exists q0, k0, v0, qn, kn. cbn [arg_q arg_k arg_v].
    repeat (split; [assumption|]).
    destruct (FlashSigmoidCrossAttention.qk_transform self) as [xf|].
    + exists q', k'. auto.
    + injection Hx as <- <-. auto.
  - intros self q kv kw g xf xf' Hext. apply cross_observe_forward;
      [apply cross_attn_call_transform_ext; assumption | reflexivity..].
  - intros self q kv kw g. apply cross_observe_forward;
      [apply cross_attn_call_transform_absent | reflexivity..].
Qed.

(** ** Cross-attention with [q_dim] different from [kv_dim] *)

Lemma resolve_shape_nonneg n new :
  Forall (fun z => 0 <= z)%Z new ->
  resolve_shape n new
  = if bool_decide (numel (Z.to_nat <$> new) = n) then Ok (Z.to_nat <$> new)
    else Err (RuntimeError "shape is invalid for input size").
Proof.
  intros Hnn. unfold resolve_shape.
  rewrite bool_decide_eq_false_2.
  2:{ rewrite Exists_exists. intros (z & Hz & Hlt).
      rewrite Forall_forall in Hnn. specialize (Hnn z Hz). lia. }
  assert (Hf : filter (fun z => z ≠ (-1)%Z) new = new).
  { induction Hnn as [|z l Hz _ IH]; [reflexivity|].
    rewrite filter_cons_True by lia. f_equal. exact IH. }
  rewrite Hf, Nat.sub_diag. reflexivity.
Qed.

Lemma reshape_shape_nonneg t new t' :
  Forall (fun z => 0 <= z)%Z new ->
  reshape t new = Ok t' -> shape t' = Z.to_nat <$> new.
Proof.
  intros Hnn. unfold reshape. rewrite resolve_shape_nonneg by assumption.
  case_bool_decide; [|discriminate]. cbn [mbind result_bind].
  intros [= <-]. reflexivity.
Qed.

Lemma cross_init_inv q_dim kv_dim sigmoid_bias causal num_heads bias qk_norm
    attn_drop proj_drop window_size alibi_slopes norm_layer which_linear
    qk_transform which_flash_attn layer :
  FlashSigmoidCrossAttention.init q_dim kv_dim sigmoid_bias causal num_heads
    bias qk_norm attn_drop proj_drop window_size alibi_slopes norm_layer
    which_linear qk_transform which_flash_attn = Ok layer ->
  num_heads <> 0%Z
  /\ (q_dim mod num_heads = 0)%Z /\ (kv_dim mod num_heads = 0)%Z
  /\ FlashSigmoidCrossAttention.num_heads layer = num_heads
  /\ FlashSigmoidCrossAttention.head_dim_q layer = (q_dim / num_heads)%Z
  /\ FlashSigmoidCrossAttention.head_dim_kv layer = (kv_dim / num_heads)%Z
  /\ FlashSigmoidCrossAttention.which_flash_attn layer = which_flash_attn
  /\ FlashSigmoidCrossAttention.qk_transform layer = qk_transform
  /\ (if qk_norm
      then norm_layer (q_dim / num_heads)%Z
           = Ok (FlashSigmoidCrossAttention.q_norm layer)
           /\ norm_layer (kv_dim / num_heads)%Z
              = Ok (FlashSigmoidCrossAttention.k_norm layer)
      else FlashSigmoidCrossAttention.q_norm layer = nn_Identity
           /\ FlashSigmoidCrossAttention.k_norm layer = nn_Identity)
  /\ norm_layer (kv_dim / num_heads)%Z
     = Ok (FlashSigmoidCrossAttention.v_norm layer)
  /\ which_linear kv_dim q_dim bias
     = Ok (FlashSigmoidCrossAttention.proj layer).
Proof.
  intros H.
  destruct (Z.eq_dec num_heads 0%Z) as [->|Hh]; [discriminate H|].
  destruct (Z.eq_dec (q_dim mod num_heads)%Z 0%Z) as [Hq|Hq];
    [|rewrite cross_init_rejects in H by auto; discriminate H].
  destruct (Z.eq_dec (kv_dim mod num_heads)%Z 0%Z) as [Hkv|Hkv];
    [|rewrite cross_init_rejects in H by auto; discriminate H].
  unfold FlashSigmoidCrossAttention.init in H.
  rewrite !py_mod_nonzero, !py_floordiv_nonzero, Hq in H by assumption.
  cbn [mbind result_bind Z.eqb] in H. rewrite Hkv in H.
  cbn [mbind result_bind Z.eqb negb] in H.
  inv_bind H. injection H as <-. cbn.
  repeat (split; [first [assumption | reflexivity]|]).
  split; [|split; reflexivity].
  destruct qk_norm.
  - split; assumption.
  - injection Hr1 as <-. injection Hr2 as <-. split; reflexivity.
Qed.

Lemma cross_project_shapes self q kv q0 k0 v0 :
  (0 <= FlashSigmoidCrossAttention.num_heads self)%Z ->
  (0 <= FlashSigmoidCrossAttention.head_dim_q self)%Z ->
  (0 <= FlashSigmoidCrossAttention.head_dim_kv self)%Z ->
  FlashSigmoidCrossAttention.project_q_kv self q kv = Ok (q0, k0, v0) ->
  exists b n b' n',
    shape q0 = [b; n; Z.to_nat (FlashSigmoidCrossAttention.num_heads self);
                Z.to_nat (FlashSigmoidCrossAttention.head_dim_q self)]
    /\ shape k0 = [b'; n'; Z.to_nat (FlashSigmoidCrossAttention.num_heads self);
                   Z.to_nat (FlashSigmoidCrossAttention.head_dim_kv self)]
    /\ shape v0 = shape k0.
Proof.
  intros HH Hq Hkv H. unfold FlashSigmoidCrossAttention.project_q_kv in H.
  inv_bind H. injection H as <- <- <-.
  apply reshape_shape_nonneg in Hr2, Hr6;
    [|repeat (apply List.Forall_cons; [lia|]); apply List.Forall_nil..].
  cbn [fmap list_fmap] in Hr2, Hr6. rewrite !Nat2Z.id in Hr2, Hr6.
  unfold unbind in Hr7. rewrite Hr6 in Hr7. cbn in Hr7.
  injection Hr7 as <-. cbn in Hr8. injection Hr8 as <- <-.
  exists a0, a1, a4, a5. cbn [select shape]. rewrite Hr6.
  split; [assumption|]. split; reflexivity.
Qed.

Lemma cross_forward_unequal_dims_raises q_dim kv_dim sigmoid_bias causal
    num_heads bias qk_norm attn_drop proj_drop window_size alibi_slopes
    norm_layer which_linear layer :
  (0 < num_heads)%Z -> (0 < q_dim)%Z -> (0 < kv_dim)%Z -> q_dim <> kv_dim ->
  (forall n m t t', norm_layer n = Ok m -> m t = Ok t' -> shape t' = shape t) ->
  FlashSigmoidCrossAttention.init q_dim kv_dim sigmoid_bias causal num_heads
    bias qk_norm attn_drop proj_drop window_size alibi_slopes norm_layer
    which_linear None flash2_sigmoid_attn_kw = Ok layer ->
  forall q kv kw g,
    FlashSigmoidCrossAttention.forward q kv kw (mkLayerState layer g)
    = Err match FlashSigmoidCrossAttention.attn_call layer q kv with
          | Ok _ => ShapeMismatch
                      "q, k, v or alibi_slopes have inconsistent shapes"
          | Err e => e
          end.
Proof.
  intros HH Hqd Hkvd Hne Hnorm Hinit q kv kw g.
  apply cross_init_inv in Hinit
    as (_ & Hqm & Hkm & Hnh & Hhq & Hhkv & Hattn & Hxf & Hqk & Hv & _).
  rewrite cross_forward_run.
  destruct (FlashSigmoidCrossAttention.attn_call layer q kv) as [c|e] eqn:Hc;
    [|reflexivity].
  apply cross_attn_call_steps in Hc
    as (q0 & k0 & v0 & qn & kn & v & q' & k' & Hp & Hqn & Hkn & Hvn & Hx & ->).
  rewrite Hxf in Hx. injection Hx as <- <-.
  assert (Hhq_pos : (0 < q_dim / num_heads)%Z).
  { apply Z.div_str_pos. split; [lia|].
    apply Z.divide_pos_le; [lia|]. apply Z.mod_divide; [lia|assumption]. }
  assert (Hhkv_pos : (0 < kv_dim / num_heads)%Z).
  { apply Z.div_str_pos. split; [lia|].
    apply Z.divide_pos_le; [lia|]. apply Z.mod_divide; [lia|assumption]. }
  assert (Hdiff : Z.to_nat (q_dim / num_heads) <> Z.to_nat (kv_dim / num_heads)).
  { intros Heq. apply Z2Nat.inj in Heq; [|lia..]. apply Hne.
    rewrite (proj2 (Z.div_exact q_dim num_heads ltac:(lia)) Hqm).
    rewrite (proj2 (Z.div_exact kv_dim num_heads ltac:(lia)) Hkm).
    rewrite Heq. reflexivity. }
  assert (Hsh : (0 <= FlashSigmoidCrossAttention.num_heads layer)%Z
                /\ (0 <= FlashSigmoidCrossAttention.head_dim_q layer)%Z
                /\ (0 <= FlashSigmoidCrossAttention.head_dim_kv layer)%Z)
    by (rewrite Hnh, Hhq, Hhkv; lia).
  destruct Hsh as (Hnh0 & Hhq0 & Hhkv0).
  destruct (cross_project_shapes layer q kv q0 k0 v0 Hnh0 Hhq0 Hhkv0 Hp)
    as (b & n & b' & n' & Hsq & Hsk & Hsv).
  rewrite Hnh, Hhq in Hsq. rewrite Hnh, Hhkv in Hsk.
  assert (Hsqn : shape qn = shape q0).
  { destruct qk_norm; destruct Hqk as [Hq1 Hq2].
    - exact (Hnorm _ _ _ _ Hq1 Hqn).
    - rewrite Hq1 in Hqn. injection Hqn as <-. reflexivity. }
  assert (Hskn : shape kn = shape k0).
  { destruct qk_norm; destruct Hqk as [Hq1 Hq2].
    - exact (Hnorm _ _ _ _ Hq2 Hkn).
    - rewrite Hq2 in Hkn. injection Hkn as <-. reflexivity. }
  assert (Hsvn : shape v = shape v0) by exact (Hnorm _ _ _ _ Hv Hvn).
  rewrite Hattn. unfold flash2_sigmoid_attn_kw, flash2_sigmoid_attn.
  cbn [arg_q arg_k arg_v arg_sigmoid_bias arg_attn_drop arg_window_size
       arg_alibi_slopes arg_causal].
  rewrite bind_run, lift_run.
  rewrite (size_last_shape4 (to qn (dtype v)) b n (Z.to_nat num_heads)
             (Z.to_nat (q_dim / num_heads)))
    by (cbn [to shape]; congruence).
  cbn [mbind result_bind].
  destruct (Z.to_nat (q_dim / num_heads)) as [|d] eqn:Hd; [lia|].
  rewrite py_pow_neg_S, bind_run.
  unfold flash_attn_sigmoid_func. cbn [shape scalar_mul to].
  rewrite Hsqn, Hsq, Hskn, Hsk, Hsvn, Hsv, Hsk.
  rewrite bool_decide_eq_false_2 by (intros (_ & _ & _ & _ & _ & Hbad & _); lia).
  reflexivity.
Qed.

(** ** The small instance *)

Lemma demo_self_init :
  FlashSigmoidAttention.init 4 0 true 2 false true 0 0 (-1, -1)%Z None
    (nn_LayerNorm true) demo_linear None flash2_sigmoid_attn_kw
  = Ok demo_self.
Proof.
  unfold FlashSigmoidAttention.init. rewrite nn_Dropout_valid by lra.
  reflexivity.
Qed.

Lemma demo_cross_init :
  FlashSigmoidCrossAttention.init 8 4 0 true 2 false false 0 0 (-1, -1)%Z None
    (nn_LayerNorm false) demo_linear None flash2_sigmoid_attn_kw
  = Ok demo_cross.
Proof.
  unfold FlashSigmoidCrossAttention.init. rewrite nn_Dropout_valid by lra.
  reflexivity.
Qed.

Lemma Dropout_forward_disabled d x g :
  drop_p d = 0%R -> Dropout_forward d x g = Ok (x, g).
Proof.
  intros Hp. unfold Dropout_forward. rewrite Hp.
  destruct (negb _ || _); [reflexivity|].
  destruct (Req_dec_T 0 0); [reflexivity|lra].
Qed.

Lemma demo_attn_call :
  exists c,
    FlashSigmoidAttention.attn_call demo_self demo_x = Ok c
    /\ shape (arg_q c) = [1; 2; 2; 2] /\ shape (arg_k c) = [1; 2; 2; 2]
    /\ shape (arg_v c) = [1; 2; 2; 2]
    /\ arg_attn_drop c = 0%R /\ arg_window_size c = (-1, -1)%Z
    /\ arg_alibi_slopes c = None.
Proof. eexists. split; [reflexivity|]. repeat split. Qed.

Lemma demo_forward_returns g :
  exists out,
    FlashSigmoidAttention.forward demo_x ∅ (mkLayerState demo_self g)
    = Ok (out, mkLayerState demo_self g).
Proof.
  rewrite self_forward_run.
  destruct demo_attn_call as (c & -> & Hq & Hk & Hv & Hp & Hw & Ha).
  change (FlashSigmoidAttention.which_flash_attn demo_self c g)
    with (flash2_sigmoid_attn (arg_q c) (arg_k c) (arg_v c)
            (arg_sigmoid_bias c) (arg_attn_drop c) (arg_window_size c)
            (arg_alibi_slopes c) (arg_causal c) true g).
  destruct (flash2_on_consistent_shapes (arg_q c) (arg_k c) (arg_v c)
              (arg_sigmoid_bias c) (arg_attn_drop c) (arg_window_size c)
              (arg_alibi_slopes c) (arg_causal c) true g 1 2 2 2 2)
    as (atv & -> & Hs & _); try assumption; try lia.
  { rewrite Ha. reflexivity. }
  { rewrite Hw. cbn. lia. }
  { rewrite Hw. cbn. lia. }
  rewrite Hp. destruct (Req_dec_T 0 0) as [_|Hne]; [|lra].
  assert (Hy : exists y, FlashSigmoidAttention.proj demo_self atv = Ok y).
  { change (FlashSigmoidAttention.proj demo_self atv)
      with (built (demo_linear 4 4 false) atv).
    unfold built, demo_linear, nn_Linear.
    rewrite bool_decide_eq_false_2 by lia. rewrite Hs.
    eexists. reflexivity. }
  destruct Hy as [y ->].
  rewrite Dropout_forward_disabled by reflexivity.
  eexists. reflexivity.
Qed.

Lemma demo_cross_eq_init :
  FlashSigmoidCrossAttention.init 4 4 0 true 2 false false 0 0 (-1, -1)%Z None
    (nn_LayerNorm false) demo_linear None flash2_sigmoid_attn_kw
  = Ok demo_cross_eq.
Proof.
  unfold FlashSigmoidCrossAttention.init. rewrite nn_Dropout_valid by lra.
  reflexivity.
Qed.

Lemma demo_cross_eq_attn_call :
  exists c,
    FlashSigmoidCrossAttention.attn_call demo_cross_eq demo_x demo_kv = Ok c
    /\ shape (arg_q c) = [1; 2; 2; 2] /\ shape (arg_k c) = [1; 3; 2; 2]
    /\ shape (arg_v c) = [1; 3; 2; 2]
    /\ arg_attn_drop c = 0%R /\ arg_window_size c = (-1, -1)%Z
    /\ arg_alibi_slopes c = None.
Proof. eexists. split; [reflexivity|]. repeat split. Qed.

Lemma demo_cross_eq_forward_returns g :
  exists out atv fp,
    FlashSigmoidCrossAttention.forward demo_x demo_kv ∅
      (mkLayerState demo_cross_eq g)
    = Ok (out, mkLayerState demo_cross_eq g)
    /\ out !! "attn_times_v" = Some atv /\ shape atv = [1; 2; 4]
    /\ out !! "attn_proj" = Some fp /\ shape fp = [1; 2; 4].
Proof.
  rewrite cross_forward_run.
  destruct demo_cross_eq_attn_call as (c & -> & Hq & Hk & Hv & Hp & Hw & Ha).
  change (FlashSigmoidCrossAttention.which_flash_attn demo_cross_eq c g)
    with (flash2_sigmoid_attn (arg_q c) (arg_k c) (arg_v c)
            (arg_sigmoid_bias c) (arg_attn_drop c) (arg_window_size c)
            (arg_alibi_slopes c) (arg_causal c) true g).
  destruct (flash2_on_consistent_shapes (arg_q c) (arg_k c) (arg_v c)
              (arg_sigmoid_bias c) (arg_attn_drop c) (arg_window_size c)
              (arg_alibi_slopes c) (arg_causal c) true g 1 2 3 2 2)
    as (atv & -> & Hs & _); try assumption; try lia.
  { rewrite Ha. reflexivity. }
  { rewrite Hw. cbn. lia. }
  { rewrite Hw. cbn. lia. }
  rewrite Hp. destruct (Req_dec_T 0 0) as [_|Hne]; [|lra].
  assert (Hy : exists y, FlashSigmoidCrossAttention.proj demo_cross_eq atv = Ok y
                         /\ shape y = [1; 2; 4]).
  { change (FlashSigmoidCrossAttention.proj demo_cross_eq atv)
      with (built (demo_linear 4 4 false) atv).
    unfold built, demo_linear, nn_Linear.
    rewrite bool_decide_eq_false_2 by lia. rewrite Hs.
    eexists. split; reflexivity. }
  destruct Hy as (y & -> & Hys).
  rewrite Dropout_forward_disabled by reflexivity.
  eexists _, atv, y. split; [reflexivity|].
  split; [by simplify_map_eq|]. split; [assumption|].
  split; [by simplify_map_eq|]. assumption.
Qed.

(** C6 (failing input). The cross-attention layer built for [q_dim = 8],
    [kv_dim = 4] and two heads is constructed, and its [forward] raises on
    inputs of shapes (1, 2, 8) and (1, 3, 4): q reaches the kernel with head
    dimension 4 and k with head dimension 2. *)
Theorem cross_attention_unequal_dims_raise :
  FlashSigmoidCrossAttention.init 8 4 0 true 2 false false 0 0 (-1, -1)%Z None
    (nn_LayerNorm false) demo_linear None flash2_sigmoid_attn_kw
  = Ok demo_cross
  /\ (exists c,
        FlashSigmoidCrossAttention.attn_call demo_cross demo_q demo_kv = Ok c
        /\ shape (arg_q c) = [1; 2; 2; 4]
        /\ shape (arg_k c) = [1; 3; 2; 2]
        /\ shape (arg_v c) = [1; 3; 2; 2])
  /\ forall kw g,
       FlashSigmoidCrossAttention.forward demo_q demo_kv kw
         (mkLayerState demo_cross g)
       = Err (ShapeMismatch "q, k, v or alibi_slopes have inconsistent shapes").
Proof.
  split; [exact demo_cross_init|]. split.
  - eexists. split; [reflexivity|]. repeat split.
  - intros kw g. rewrite cross_forward_run. reflexivity.
Qed.

(** ** The properties at the small instance *)

Lemma sigmoid_attention_weights_witness :
  exists out g',
    flash2_sigmoid_attn demo_head demo_head demo_head 0 0 (-1, -1)%Z None
      true true demo_rng = Ok (out, g')
    /\ shape out = [1; 2; 2]
    /\ data out [0; 0; 0]
       = (sigmoid (dot_qk demo_head demo_head 2 0 0 0 0 * Rpower (INR 2) (-0.5)
                   + 0 + 0) * 1)%R.
Proof.
  destruct (sigmoid_attention_weights demo_head demo_head demo_head 0 0
              (-1, -1)%Z None true true demo_rng 1 2 2 1 2
              eq_refl eq_refl eq_refl)
    as (out & g' & Hrun & Hs & _ & _ & _ & Hlone);
    [lia | reflexivity | cbn; lia | cbn; lia |].
  exists out, g'. split; [exact Hrun|]. split; [exact Hs|].
  destruct (Hlone eq_refl 0 0 0 0 0) as [Hd _];
    [lia | lia | reflexivity | | exact Hd].
  intros j Hj Hne. assert (j = 1) as -> by lia. reflexivity.
Defined.

Lemma fused_prescale_leaves_v_witness :
  exists arg,
    fused_kernel_input demo_qkv true = Ok arg
    /\ tensor_eqv (select arg 2 2) (select demo_qkv 2 2).
Proof.
  destruct (fused_prescale_leaves_v demo_qkv 1 2 2 2 eq_refl)
    as (arg & Harg & _ & _ & _ & Hv & _); [lia|].
  exists arg. split; assumption.
Defined.

Lemma construction_requires_divisibility_witness :
  (exists layer,
     FlashSigmoidAttention.init 4 0 true 2 false true 0 0 (-1, -1)%Z None
       (nn_LayerNorm true) demo_linear None flash2_sigmoid_attn_kw = Ok layer
     /\ FlashSigmoidAttention.head_dim layer = 2%Z)
  /\ FlashSigmoidAttention.init 5 0 true 2 false true 0 0 (-1, -1)%Z None
       (nn_LayerNorm true) demo_linear None flash2_sigmoid_attn_kw
     = Err (AssertionError "dim should be divisible by num_heads").
Proof.
  destruct (construction_requires_divisibility 0 true 2 false true 0 0
              (-1, -1)%Z None (nn_LayerNorm true) demo_linear None
              flash2_sigmoid_attn_kw) as [Hself _].
  split.
  - destruct (Hself 4%Z) as [Hok _].
    destruct Hok as (layer & Hl & _ & Hhd & _).
    + lia.
    + reflexivity.
    + lra.
    + eexists. reflexivity.
    + eexists. reflexivity.
    + intros _. eexists. reflexivity.
    + exists layer. split; [exact Hl | exact Hhd].
  - destruct (Hself 5%Z) as [_ Hbad]. apply Hbad. right. discriminate.
Defined.

Lemma forward_output_record_witness :
  exists out,
    FlashSigmoidAttention.forward demo_x ∅ (mkLayerState demo_self demo_rng)
    = Ok (out, mkLayerState demo_self demo_rng)
    /\ dom out = ({["attn_times_v"; "attn_proj"]} : gset string).
Proof.
  destruct (demo_forward_returns demo_rng) as [out Hout].
  exists out. split; [exact Hout|].
  destruct forward_output_record as [Hself _].
  destruct (proj1 (Hself demo_x ∅ demo_self demo_rng out _) Hout)
    as (c & atv & g1 & y & fp & g2 & _ & _ & _ & _ & Hdom & _).
  exact Hdom.
Defined.

Lemma v_normalization_asymmetry_witness :
  exists c q0 k0,
    FlashSigmoidAttention.attn_call demo_self demo_x = Ok c
    /\ FlashSigmoidAttention.project_qkv demo_self demo_x
       = Ok (q0, k0, arg_v c).
Proof.
  destruct demo_attn_call as (c & Hc & _).
  destruct (proj1 v_normalization_asymmetry demo_self demo_x c Hc)
    as (q0 & k0 & Hp).
  exists c, q0, k0. split; assumption.
Defined.

Lemma qk_cast_to_v_dtype_witness :
  exists c,
    FlashSigmoidAttention.attn_call demo_self demo_x = Ok c
    /\ dtype (arg_q c) = dtype (arg_v c)
    /\ dtype (arg_k c) = dtype (arg_v c).
Proof.
  destruct demo_attn_call as (c & Hc & _).
  destruct (proj1 qk_cast_to_v_dtype demo_self demo_x c Hc)
    as (q0 & k0 & qn & kn & q' & k' & _ & _ & _ & _ & _ & _ & Hq & Hk).
  exists c. repeat split; assumption.
Defined.

Lemma qk_transform_at_offset_zero_witness :
  exists c q0 k0 qn kn,
    FlashSigmoidAttention.attn_call demo_self demo_x = Ok c
    /\ FlashSigmoidAttention.q_norm demo_self q0 = Ok qn
    /\ FlashSigmoidAttention.k_norm demo_self k0 = Ok kn
    /\ arg_q c = to qn (dtype (arg_v c))
    /\ arg_k c = to kn (dtype (arg_v c)).
Proof.
  destruct demo_attn_call as (c & Hc & _).
  destruct (proj1 qk_transform_at_offset_zero demo_self demo_x c Hc)
    as (q0 & k0 & qn & kn & _ & Hqn & Hkn & Hq & Hk).
  exists c, q0, k0, qn, kn. repeat split; assumption.
Defined.

(** * Further properties of the code *)

(** ** Row-major layout *)

Lemma div_mod_pack q a b :
  a < q -> (b * q + a) / q = b /\ (b * q + a) mod q = a.
Proof.
  intros Ha. split.
  - rewrite Nat.div_add_l by lia. rewrite Nat.div_small by lia. lia.
  - rewrite Nat.add_comm, Nat.Div0.mod_add. apply Nat.mod_small. lia.
Qed.

Lemma unravel_ravel_split3 B N k H D b n c h d :
  n < N -> c < k -> h < H -> d < D ->
  unravel [B; N; k * H * D] (ravel [B; N; k; H; D] [b; n; c; h; d])
  = [b; n; (c * H + h) * D + d].
Proof.
  intros Hn Hc Hh Hd. cbn [unravel ravel numel fold_right].
  rewrite !Nat.mul_1_r, Nat.add_0_r.
  assert (Hm : (c * H + h) * D + d < k * H * D).
  { assert (c * H + h + 1 <= k * H) by nia.
    assert ((c * H + h + 1) * D <= k * H * D) by (apply Nat.mul_le_mono_r; lia).
    lia. }
  replace (b * (N * (k * (H * D))) + (n * (k * (H * D)) + (c * (H * D) + (h * D + d))))
    with (b * (N * (k * H * D)) + (n * (k * H * D) + ((c * H + h) * D + d))) by ring.
  destruct (div_mod_pack (N * (k * H * D)) (n * (k * H * D) + ((c * H + h) * D + d)) b)
    as [-> ->]; [nia|].
  destruct (div_mod_pack (k * H * D) ((c * H + h) * D + d) n) as [-> ->]; [nia|].
  rewrite Nat.div_1_r. reflexivity.
Qed.

Lemma unravel_ravel_split2 B N H D b n h d :
  n < N -> h < H -> d < D ->
  unravel [B; N; H * D] (ravel [B; N; H; D] [b; n; h; d]) = [b; n; h * D + d].
Proof.
  intros Hn Hh Hd. cbn [unravel ravel numel fold_right].
  rewrite !Nat.mul_1_r, Nat.add_0_r.
  assert (Hm : h * D + d < H * D).
  { assert ((h + 1) * D <= H * D) by (apply Nat.mul_le_mono_r; lia). lia. }
  replace (b * (N * (H * D)) + (n * (H * D) + (h * D + d)))
    with (b * (N * (H * D)) + (n * (H * D) + (h * D + d))) by ring.
  destruct (div_mod_pack (N * (H * D)) (n * (H * D) + (h * D + d)) b)
    as [-> ->]; [nia|].
  destruct (div_mod_pack (H * D) (h * D + d) n) as [-> ->]; [nia|].
  rewrite Nat.div_1_r. reflexivity.
Qed.

Lemma reshape_nonneg_run t new :
  Forall (fun z => 0 <= z)%Z new ->
  numel (Z.to_nat <$> new) = numel (shape t) ->
  reshape t new
  = Ok {| shape := Z.to_nat <$> new; dtype := dtype t;
          data := fun idx =>
            data t (unravel (shape t) (ravel (Z.to_nat <$> new) idx)) |}.
Proof.
  intros Hnn Hnum. unfold reshape. rewrite resolve_shape_nonneg by assumption.
  rewrite bool_decide_eq_true_2 by assumption. reflexivity.
Qed.

Lemma project_qkv_layout self x y B N C :
  (0 < FlashSigmoidAttention.num_heads self)%Z ->
  shape x = [B; N; C] ->
  FlashSigmoidAttention.qkv self x = Ok y ->
  let H := Z.to_nat (FlashSigmoidAttention.num_heads self) in
  let D := Z.to_nat (Z.of_nat C / FlashSigmoidAttention.num_heads self) in
  shape y = [B; N; 3 * H * D] ->
  exists q k v,
    FlashSigmoidAttention.project_qkv self x = Ok (q, k, v)
    /\ shape q = [B; N; H; D] /\ shape k = [B; N; H; D]
    /\ shape v = [B; N; H; D]
    /\ dtype q = dtype y /\ dtype k = dtype y /\ dtype v = dtype y
    /\ forall b n h d, n < N -> h < H -> d < D ->
         data q [b; n; h; d] = data y [b; n; h * D + d]
         /\ data k [b; n; h; d] = data y [b; n; H * D + h * D + d]
         /\ data v [b; n; h; d] = data y [b; n; 2 * H * D + h * D + d].
Proof.
  intros HH Hx Hy H D Hsy. unfold FlashSigmoidAttention.project_qkv, shape3.
  rewrite Hx. cbn [mbind result_bind]. rewrite Hy. cbn [mbind result_bind].
  rewrite py_floordiv_nonzero by lia. cbn [mbind result_bind].
  assert (HD : (0 <= Z.of_nat C / FlashSigmoidAttention.num_heads self)%Z)
    by (apply Z.div_pos; lia).
  rewrite reshape_nonneg_run.
  2:{ repeat (apply List.Forall_cons; [lia|]). apply List.Forall_nil. }
  2:{ rewrite Hsy. cbn [fmap list_fmap numel fold_right]. rewrite !Nat2Z.id.
      fold H D. change (Z.to_nat 3) with 3. ring. }
  cbn [fmap list_fmap]. rewrite !Nat2Z.id. fold H D. change (Z.to_nat 3) with 3.
  cbn [mbind result_bind]. unfold unbind. cbn [shape length nth].
  rewrite bool_decide_eq_true_2 by lia. cbn [mbind result_bind seq fmap list_fmap unpack3].
  eexists _, _, _. split; [reflexivity|].
  cbn [shape dtype data select firstn skipn app].
  repeat (split; [reflexivity|]).
  intros b n h d Hn Hh Hd. rewrite Hsy.
  rewrite !(unravel_ravel_split3 B N 3 H D) by lia.
  replace ((0 * H + h) * D + d) with (h * D + d) by ring.
  replace ((1 * H + h) * D + d) with (H * D + h * D + d) by ring.
  replace ((2 * H + h) * D + d) with (2 * H * D + h * D + d) by ring.
  repeat split.
Qed.

Lemma project_q_kv_layout self q kv yq ykv B Sq Sk restq restkv :
  (0 <= FlashSigmoidCrossAttention.num_heads self)%Z ->
  (0 <= FlashSigmoidCrossAttention.head_dim_q self)%Z ->
  (0 <= FlashSigmoidCrossAttention.head_dim_kv self)%Z ->
  shape q = B :: Sq :: restq -> shape kv = B :: Sk :: restkv ->
  FlashSigmoidCrossAttention.q_proj self q = Ok yq ->
  FlashSigmoidCrossAttention.kv_proj self kv = Ok ykv ->
  let H := Z.to_nat (FlashSigmoidCrossAttention.num_heads self) in
  let Dq := Z.to_nat (FlashSigmoidCrossAttention.head_dim_q self) in
  let Dkv := Z.to_nat (FlashSigmoidCrossAttention.head_dim_kv self) in
  shape yq = [B; Sq; H * Dq] -> shape ykv = [B; Sk; 2 * H * Dkv] ->
  exists q0 k0 v0,
    FlashSigmoidCrossAttention.project_q_kv self q kv = Ok (q0, k0, v0)
    /\ shape q0 = [B; Sq; H; Dq] /\ shape k0 = [B; Sk; H; Dkv]
    /\ shape v0 = [B; Sk; H; Dkv]
    /\ dtype q0 = dtype yq /\ dtype k0 = dtype ykv /\ dtype v0 = dtype ykv
    /\ (forall b n h d, n < Sq -> h < H -> d < Dq ->
          data q0 [b; n; h; d] = data yq [b; n; h * Dq + d])
    /\ (forall b n h d, n < Sk -> h < H -> d < Dkv ->
          data k0 [b; n; h; d] = data ykv [b; n; h * Dkv + d]
          /\ data v0 [b; n; h; d] = data ykv [b; n; H * Dkv + h * Dkv + d]).
Proof.
  intros HH HDq HDkv Hq Hkv Hyq Hykv H Dq Dkv Hsq Hskv.
  unfold FlashSigmoidCrossAttention.project_q_kv, shape_index.
  rewrite Hq, Hkv, Hyq. cbn [mbind result_bind lookup list_lookup].
  rewrite reshape_nonneg_run.
  2:{ repeat (apply List.Forall_cons; [lia|]). apply List.Forall_nil. }
  2:{ rewrite Hsq. cbn [fmap list_fmap numel fold_right]. rewrite !Nat2Z.id.
      fold H Dq. ring. }
  cbn [fmap list_fmap mbind result_bind]. rewrite !Nat2Z.id. fold H Dq.
  rewrite Hykv. cbn [mbind result_bind].
  rewrite reshape_nonneg_run.
  2:{ repeat (apply List.Forall_cons; [lia|]). apply List.Forall_nil. }
  2:{ rewrite Hskv. cbn [fmap list_fmap numel fold_right]. rewrite !Nat2Z.id.
      fold H Dkv. change (Z.to_nat 2) with 2. ring. }
  cbn [fmap list_fmap mbind result_bind]. rewrite !Nat2Z.id. fold H Dkv.
  change (Z.to_nat 2) with 2.
  unfold unbind. cbn [shape length nth].
  rewrite bool_decide_eq_true_2 by lia.
  cbn [mbind result_bind seq fmap list_fmap unpack2].
  eexists _, _, _. split; [reflexivity|].
  cbn [shape dtype data select firstn skipn app].
  repeat (split; [reflexivity|]). split.
  - intros b n h d Hn Hh Hd. rewrite Hsq.
    rewrite (unravel_ravel_split2 B Sq H Dq) by lia. reflexivity.
  - intros b n h d Hn Hh Hd. rewrite Hskv.
    rewrite !(unravel_ravel_split3 B Sk 2 H Dkv) by lia.
    replace ((0 * H + h) * Dkv + d) with (h * Dkv + d) by ring.
    replace ((1 * H + h) * Dkv + d) with (H * Dkv + h * Dkv + d) by ring.
    split; reflexivity.
Qed.

(** ** The building blocks on well-shaped input *)

Lemma nn_Linear_run w b i o bias x pre :
  (0 <= i)%Z -> (0 <= o)%Z -> shape x = pre ++ [Z.to_nat i] ->
  exists m y,
    nn_Linear w b i o bias = Ok m /\ m x = Ok y
    /\ shape y = pre ++ [Z.to_nat o] /\ dtype y = dtype x
    /\ forall idx j,
         length idx = length pre ->
         data y (idx ++ [j])
         = (rsum (Z.to_nat i) (fun c => data x (idx ++ [c]) * w j c)
            + (if bias then b j else 0))%R.
Proof.
  intros Hi Ho Hx. unfold nn_Linear.
  rewrite bool_decide_eq_false_2 by lia.
  assert (Hl : last (shape x) = Some (Z.to_nat i))
    by (rewrite Hx; apply last_snoc).
  eexists _, _. split; [reflexivity|]. cbv beta.
  rewrite Hl, bool_decide_eq_true_2 by reflexivity.
  split; [reflexivity|]. cbn [shape dtype data].
  rewrite Hx, removelast_last. repeat split.
  intros idx j _. rewrite removelast_last, List.last_last. reflexivity.
Qed.



(** ** Self-attention on well-shaped input *)

Lemma self_init_inv dim sigmoid_bias causal num_heads bias qk_norm attn_drop
    proj_drop window_size alibi_slopes norm_layer which_linear qk_transform
    which_flash_attn layer :
  FlashSigmoidAttention.init dim sigmoid_bias causal num_heads bias qk_norm
    attn_drop proj_drop window_size alibi_slopes norm_layer which_linear
    qk_transform which_flash_attn = Ok layer ->
  num_heads <> 0%Z /\ (dim mod num_heads = 0)%Z
  /\ FlashSigmoidAttention.num_heads layer = num_heads
  /\ FlashSigmoidAttention.head_dim layer = (dim / num_heads)%Z
  /\ FlashSigmoidAttention.causal layer = causal
  /\ FlashSigmoidAttention.window_size layer = window_size
  /\ FlashSigmoidAttention.alibi_slopes layer = alibi_slopes
  /\ FlashSigmoidAttention.sigmoid_bias layer = sigmoid_bias
  /\ FlashSigmoidAttention.attn_drop layer = attn_drop
  /\ FlashSigmoidAttention.which_flash_attn layer = which_flash_attn
  /\ FlashSigmoidAttention.qk_transform layer = qk_transform
  /\ which_linear dim (dim * 3)%Z bias = Ok (FlashSigmoidAttention.qkv layer)
  /\ (if qk_norm
      then norm_layer (dim / num_heads)%Z
           = Ok (FlashSigmoidAttention.q_norm layer)
           /\ norm_layer (dim / num_heads)%Z
              = Ok (FlashSigmoidAttention.k_norm layer)
      else FlashSigmoidAttention.q_norm layer = nn_Identity
           /\ FlashSigmoidAttention.k_norm layer = nn_Identity)
  /\ which_linear dim dim bias = Ok (FlashSigmoidAttention.proj layer)
  /\ nn_Dropout proj_drop = Ok (FlashSigmoidAttention.proj_drop layer).
Proof.
  intros H.
  destruct (Z.eq_dec num_heads 0%Z) as [->|Hh]; [discriminate H|].
  destruct (Z.eq_dec (dim mod num_heads)%Z 0%Z) as [Hd|Hd];
    [|rewrite self_init_rejects in H by auto; discriminate H].
  unfold FlashSigmoidAttention.init in H.
  rewrite py_mod_nonzero, py_floordiv_nonzero, Hd in H by assumption.
  cbn [mbind result_bind Z.eqb negb] in H.
  destruct (which_linear dim (dim * 3)%Z bias) as [m1|] eqn:H1;
    [|discriminate H]. cbn [mbind result_bind] in H.
  destruct qk_norm.
  - destruct (norm_layer (dim / num_heads)%Z) as [nq|] eqn:Hn;
      [|discriminate H]. cbn [mbind result_bind] in H.
    destruct (which_linear dim dim bias) as [m2|] eqn:H2; [|discriminate H].
    cbn [mbind result_bind] in H.
    destruct (nn_Dropout proj_drop) as [pd|] eqn:Hp; [|discriminate H].
    injection H as <-. cbn. repeat split; assumption.
  - cbn [mbind result_bind] in H.
    destruct (which_linear dim dim bias) as [m2|] eqn:H2; [|discriminate H].
    cbn [mbind result_bind] in H.
    destruct (nn_Dropout proj_drop) as [pd|] eqn:Hp; [|discriminate H].
    injection H as <-. cbn. repeat split; assumption.
Qed.

Lemma heads_times_head_dim dim num_heads :
  (0 < num_heads)%Z -> (0 < dim)%Z -> (dim mod num_heads = 0)%Z ->
  Z.to_nat num_heads * Z.to_nat (dim / num_heads) = Z.to_nat dim
  /\ 0 < Z.to_nat (dim / num_heads).
Proof.
  intros Hh Hd Hm.
  pose proof (proj2 (Z.div_exact dim num_heads ltac:(lia)) Hm) as He.
  assert (0 < dim / num_heads)%Z by nia.
  split; [|lia]. rewrite <- Z2Nat.inj_mul by lia. f_equal. lia.
Qed.



(** ** Cross-attention on well-shaped input *)

Lemma cross_init_fields q_dim kv_dim sigmoid_bias causal num_heads bias
    qk_norm attn_drop proj_drop window_size alibi_slopes norm_layer
    which_linear qk_transform which_flash_attn layer :
  FlashSigmoidCrossAttention.init q_dim kv_dim sigmoid_bias causal num_heads
    bias qk_norm attn_drop proj_drop window_size alibi_slopes norm_layer
    which_linear qk_transform which_flash_attn = Ok layer ->
  FlashSigmoidCrossAttention.causal layer = causal
  /\ FlashSigmoidCrossAttention.window_size layer = window_size
  /\ FlashSigmoidCrossAttention.alibi_slopes layer = alibi_slopes
  /\ FlashSigmoidCrossAttention.sigmoid_bias layer = sigmoid_bias
  /\ FlashSigmoidCrossAttention.attn_drop layer = attn_drop
  /\ which_linear q_dim q_dim bias
     = Ok (FlashSigmoidCrossAttention.q_proj layer)
  /\ which_linear kv_dim (kv_dim * 2)%Z bias
     = Ok (FlashSigmoidCrossAttention.kv_proj layer)
  /\ nn_Dropout proj_drop = Ok (FlashSigmoidCrossAttention.proj_drop layer).
Proof.
  intros H. pose proof (cross_init_inv _ _ _ _ _ _ _ _ _ _ _ _ _ _ _ _ H)
    as (Hh & Hq & Hkv & _).
  unfold FlashSigmoidCrossAttention.init in H.
  rewrite !py_mod_nonzero, !py_floordiv_nonzero, Hq in H by assumption.
  cbn [mbind result_bind Z.eqb] in H. rewrite Hkv in H.
  cbn [mbind result_bind Z.eqb negb] in H.
  destruct (which_linear q_dim q_dim bias) as [m1|] eqn:H1; [|discriminate H].
  cbn [mbind result_bind] in H.
  destruct (which_linear kv_dim (kv_dim * 2)%Z bias) as [m2|] eqn:H2;
    [|discriminate H].
  cbn [mbind result_bind] in H.
  inv_bind H. injection H as <-. cbn. repeat split; assumption.
Qed.



(** ** Malformed input *)

Lemma nn_Linear_inv w b i o bias m :
  nn_Linear w b i o bias = Ok m ->
  (0 <= i)%Z /\ (0 <= o)%Z
  /\ forall x n, last (shape x) = Some n -> n <> Z.to_nat i ->
       m x = Err (RuntimeError "mat1 and mat2 shapes cannot be multiplied").
Proof.
  unfold nn_Linear. case_bool_decide as Hneg; [discriminate|].
  intros [= <-]. split; [lia|]. split; [lia|].
  intros x n Hl Hn. rewrite Hl, bool_decide_eq_false_2 by assumption.
  reflexivity.
Qed.

(** X3. Self-attention [forward] on an input that is not three-dimensional
    raises the [ValueError] of the unpacking [B, N, C = x.shape], whatever the
    layer is; on a three-dimensional input whose last axis is not [dim], a
    layer built with [nn.Linear] raises the [RuntimeError] of the qkv
    projection. *)
Theorem self_attention_rejects_malformed_input :
  (forall self x kw g,
     length (shape x) <> 3 ->
     FlashSigmoidAttention.forward x kw (mkLayerState self g)
     = Err (ValueError "wrong number of values to unpack"))
  /\ (forall dim sigmoid_bias causal num_heads bias qk_norm attn_drop
             proj_drop window_size alibi_slopes norm_layer w b qk_transform
             which_flash_attn layer x B N C kw g,
        FlashSigmoidAttention.init dim sigmoid_bias causal num_heads bias
          qk_norm attn_drop proj_drop window_size alibi_slopes norm_layer
          (nn_Linear w b) qk_transform which_flash_attn = Ok layer ->
        shape x = [B; N; C] -> C <> Z.to_nat dim ->
        FlashSigmoidAttention.forward x kw (mkLayerState layer g)
        = Err (RuntimeError "mat1 and mat2 shapes cannot be multiplied")).
Proof.
  split.
  - intros self x kw g Hlen. rewrite self_forward_run.
    unfold FlashSigmoidAttention.attn_call,
      FlashSigmoidAttention.project_qkv, shape3.
    destruct (shape x) as [|B [|N [|C [|]]]]; try reflexivity.
    cbn in Hlen. lia.
  - intros until g. intros Hinit Hx HC. rewrite self_forward_run.
    apply self_init_inv in Hinit
      as (_ & _ & _ & _ & _ & _ & _ & _ & _ & _ & _ & Hqkv & _).
    apply nn_Linear_inv in Hqkv as (_ & _ & Hbad).
    unfold FlashSigmoidAttention.attn_call,
      FlashSigmoidAttention.project_qkv, shape3.
    rewrite Hx. cbn [mbind result_bind].
    rewrite (Hbad x C) by (rewrite ?Hx; done). reflexivity.
Qed.

(** ** An empty head dimension *)

Lemma flash2_empty_head_dim q k v sb p w a c prescale g :
  last (shape q) = Some 0 ->
  flash2_sigmoid_attn q k v sb p w a c prescale g = Err ZeroDivisionError.
Proof.
  intros Hl. unfold flash2_sigmoid_attn, size_last.
  rewrite bind_run, lift_run, Hl. reflexivity.
Qed.

(** X4. Both attention helpers compute [head_dim ** (-0.25)] before they look
    at [prescale], so on an input whose last axis is empty they raise
    [ZeroDivisionError] for [prescale=False] as well as for
    [prescale=True]. *)
Theorem helpers_reject_empty_head_dim :
  (forall q k v sigmoid_bias attn_drop window_size alibi_slopes causal
          prescale g,
     last (shape q) = Some 0 ->
     flash2_sigmoid_attn q k v sigmoid_bias attn_drop window_size alibi_slopes
       causal prescale g = Err ZeroDivisionError)
  /\ (forall qkv sigmoid_bias attn_drop window_size alibi_slopes causal
             prescale g,
        last (shape qkv) = Some 0 ->
        fused_sigmoid_flash2_attn qkv sigmoid_bias attn_drop window_size
          alibi_slopes causal prescale g = Err ZeroDivisionError).
Proof.
  split.
  - intros until g. apply flash2_empty_head_dim.
  - intros until g. intros Hl.
    unfold fused_sigmoid_flash2_attn, fused_kernel_input, size_last.
    rewrite bind_run, lift_run, Hl. reflexivity.
Qed.

(** X5. [dim = 0] passes the divisibility assertion: [__init__] returns a
    layer (without qk norm, [proj_drop] a probability) for every positive
    [num_heads], and the failure only shows at [forward], which raises
    [ZeroDivisionError] from the helper's scale on every input of shape
    [(B, N, 0)]. *)
Theorem zero_dim_fails_at_forward sigmoid_bias causal num_heads bias attn_drop
    proj_drop window_size alibi_slopes autocast w b qk_transform :
  (0 < num_heads)%Z -> (0 <= proj_drop <= 1)%R ->
  keeps_shapes qk_transform ->
  exists layer,
    FlashSigmoidAttention.init 0 sigmoid_bias causal num_heads bias false
      attn_drop proj_drop window_size alibi_slopes (nn_LayerNorm autocast)
      (nn_Linear w b) qk_transform flash2_sigmoid_attn_kw = Ok layer
    /\ forall x B N kw g,
         shape x = [B; N; 0] ->
         FlashSigmoidAttention.forward x kw (mkLayerState layer g)
         = Err ZeroDivisionError.
Proof.
  intros Hh Hp Hxf.
  assert (Hex : exists layer,
             FlashSigmoidAttention.init 0 sigmoid_bias causal num_heads bias
               false attn_drop proj_drop window_size alibi_slopes
               (nn_LayerNorm autocast) (nn_Linear w b) qk_transform
               flash2_sigmoid_attn_kw = Ok layer).
  { destruct (self_init_ok 0 sigmoid_bias causal num_heads bias false
                attn_drop proj_drop window_size alibi_slopes
                (nn_LayerNorm autocast) (nn_Linear w b) qk_transform
                flash2_sigmoid_attn_kw) as (layer & Hl & _).
    - lia.
    - apply Z.mod_0_l. lia.
    - exact Hp.
    - eexists. reflexivity.
    - eexists. reflexivity.
    - intros [=].
    - exists layer. exact Hl. }
  destruct Hex as [layer Hinit].
  exists layer. split; [exact Hinit|].
  intros x B N kw g Hx. rewrite self_forward_run.
  apply self_init_inv in Hinit
    as (_ & _ & Hnh & _ & _ & _ & _ & _ & _ & Hattn & Hqt & Hqkv
        & [Hn1 Hn2] & _).
  destruct (nn_Linear_run w b 0 (0 * 3) bias x [B; N])
    as (m & y & Hm1 & Hy & Hsy & _); [lia | lia | exact Hx |].
  rewrite Hqkv in Hm1. injection Hm1 as <-.
  destruct (project_qkv_layout layer x y B N 0)
    as (q & k & v & Hpq & Hsq & Hsk & Hsv & _);
    [rewrite Hnh; lia | exact Hx | exact Hy | |].
  { rewrite Hsy, Hnh. cbn [app]. rewrite Z.div_0_l by lia.
    change (Z.to_nat (0 * 3)) with 0. change (Z.to_nat 0) with 0.
    do 2 f_equal. f_equal. lia. }
  rewrite Hnh, Z.div_0_l in Hsq by lia. change (Z.to_nat 0) with 0 in Hsq.
  assert (Hq' : exists q' k',
             match FlashSigmoidAttention.qk_transform layer with
             | Some xf => xf q k 0%Z 0%Z
             | None => Ok (q, k)
             end = Ok (q', k') /\ shape q' = shape q).
  { rewrite Hqt. destruct qk_transform as [f|].
    - destruct (Hxf q k) as (q' & k' & Hr & Hs1 & _). exists q', k'. auto.
    - exists q, k. auto. }
  destruct Hq' as (q' & k' & Hr & Hsq').
  assert (Hc : FlashSigmoidAttention.attn_call layer x
               = Ok (mkAttnCall (to q' (dtype v)) (to k' (dtype v)) v
                       (FlashSigmoidAttention.attn_drop layer)
                       (FlashSigmoidAttention.causal layer)
                       (FlashSigmoidAttention.window_size layer)
                       (FlashSigmoidAttention.alibi_slopes layer)
                       (FlashSigmoidAttention.sigmoid_bias layer))).
  { apply self_attn_call_steps. exists q, k, v, q, k, q', k'.
    rewrite Hn1, Hn2. repeat split; assumption. }
  rewrite Hc, Hattn. unfold flash2_sigmoid_attn_kw. cbn [arg_q].
  rewrite flash2_empty_head_dim; [reflexivity|].
  cbn [to shape]. rewrite Hsq', Hsq. reflexivity.
Qed.

(** ** What an output element of the kernel depends on *)

Lemma attn_out_ext q1 k1 v1 q2 k2 v2 B Sq Sk H D s1 s2 p w al cz sb g b i h d :
  (forall j, j < Sk -> masked cz w Sq Sk i j = false ->
     (dot_qk q1 k1 D b h i j * s1 = dot_qk q2 k2 D b h i j * s2)%R
     /\ data v1 [b; j; h; d] = data v2 [b; j; h; d]) ->
  attn_out (mkKernelArgs q1 k1 v1 B Sq Sk H D s1 p w al cz sb) g b i h d
  = attn_out (mkKernelArgs q2 k2 v2 B Sq Sk H D s2 p w al cz sb) g b i h d.
Proof.
  intros Hext. unfold attn_out.
  cbn [kSk kcausal kwindow_size kSq kv].
  apply rsum_ext. intros j Hj.
  destruct (masked cz w Sq Sk i j) eqn:Hm; [reflexivity|].
  destruct (Hext j Hj Hm) as [Hdot Hv]. rewrite Hv. f_equal.
  unfold dropped_weight, attn_weight, attn_logit.
  cbn [kdropout_p kB kH kSq kSk kq kk kD kscale kalibi_slopes ksigmoid_bias].
  rewrite Hdot. reflexivity.
Qed.

Lemma kernel_then_flatten q k v scale p w a cz sb g B Sq Sk H D :
  shape q = [B; Sq; H; D] -> shape k = [B; Sk; H; D] ->
  shape v = [B; Sk; H; D] -> alibi_ok a B H = true ->
  (-1 <= w.1)%Z -> (-1 <= w.2)%Z ->
  exists out,
    (o ← flash_attn_sigmoid_func q k v (Some scale) p w a cz sb;
     lift (flatten o 2)) g
    = Ok (out, if Req_dec_T p 0 then g else rng_skip (B * H * Sq * Sk) g)
    /\ shape out = [B; Sq; H * D] /\ dtype out = dtype q
    /\ forall b i h d, d < D ->
         data out [b; i; h * D + d]
         = attn_out (mkKernelArgs q k v B Sq Sk H D scale p w a cz sb)
             g b i h d.
Proof.
  intros Hq Hk Hv Ha Hw1 Hw2. rewrite bind_run.
  rewrite (kernel_on_consistent_shapes _ _ _ B Sq Sk H D) by assumption.
  unfold kernel_run at 1. cbn [kB kSq kSk kH kD kq kdropout_p].
  set (kout := mkTensor _ _ _).
  destruct (flatten_heads kout B Sq H D eq_refl)
    as (out & Hf & Hsh & Hdt & Hdata).
  rewrite lift_run, Hf. exists out.
  split; [reflexivity|]. split; [assumption|]. split; [assumption|].
  intros b i h d0 Hd0. rewrite Hdata by assumption. reflexivity.
Qed.

Lemma in_range_flat_heads idx B N H D :
  in_range idx [B; N; H * D] ->
  exists b i h d,
    idx = [b; i; h * D + d] /\ b < B /\ i < N /\ h < H /\ d < D.
Proof.
  intros Hr. inv_range Hr.
  assert (HD : D <> 0) by (intros ->; lia).
  exists i, i0, (i1 / D), (i1 mod D).
  split.
  - do 3 f_equal. rewrite (Nat.div_mod_eq i1 D) at 1. lia.
  - repeat split; try assumption.
    + apply Nat.Div0.div_lt_upper_bound. lia.
    + apply Nat.mod_upper_bound. assumption.
Qed.

(** ** The fused helper against the unfused one *)

Lemma fused_kernel_input_unscaled qkv B N H D :
  shape qkv = [B; N; 3; H; D] -> D <> 0 ->
  fused_kernel_input qkv false = Ok qkv.
Proof.
  intros Hs HD. unfold fused_kernel_input, size_last. rewrite Hs. cbn [last].
  destruct D as [|d]; [done|]. reflexivity.
Qed.

Lemma fused_unfused_run qkv sb p w al cz prescale g B N H D :
  shape qkv = [B; N; 3; H; D] -> D <> 0 ->
  alibi_ok al B H = true -> (-1 <= w.1)%Z -> (-1 <= w.2)%Z ->
  exists o1 o2 g',
    fused_sigmoid_flash2_attn qkv sb p w al cz prescale g = Ok (o1, g')
    /\ flash2_sigmoid_attn (select qkv 2 0) (select qkv 2 1) (select qkv 2 2)
         sb p w al cz prescale g = Ok (o2, g')
    /\ shape o1 = [B; N; H * D]
    /\ tensor_eqv o1 o2.
Proof.
  intros Hs HD Hal Hw1 Hw2.
  assert (Hsel : forall c, shape (select qkv 2 c) = [B; N; H; D])
    by (intros c; cbn [select shape]; rewrite Hs; reflexivity).
  destruct (flash2_on_consistent_shapes (select qkv 2 0) (select qkv 2 1)
              (select qkv 2 2) sb p w al cz prescale g B N N H D)
    as (o2 & Hrun2 & Hs2 & Hdt2 & Hd2); try apply Hsel; try assumption.
  destruct prescale.
  - destruct (fused_kernel_input_prescaled qkv B N H D Hs HD)
      as (arg & Harg & Hsa & Hdta & Hda).
    assert (Hsela : forall c, shape (select arg 2 c) = [B; N; H; D])
      by (intros c; cbn [select shape]; rewrite Hsa, Hs; reflexivity).
    destruct (kernel_then_flatten (select arg 2 0) (select arg 2 1)
                (select arg 2 2) 1 p w al cz sb g B N N H D)
      as (o1 & Hrun1 & Hs1 & Hdt1 & Hd1); try apply Hsela; try assumption.
    exists o1, o2, (if Req_dec_T p 0 then g else rng_skip (B * H * N * N) g).
    split.
    { unfold fused_sigmoid_flash2_attn. rewrite bind_run, lift_run, Harg.
      unfold flash_attn_sigmoid_qkvpacked_func. rewrite Hsa, Hs.
      exact Hrun1. }
    split; [exact Hrun2|]. split; [exact Hs1|].
    split; [congruence|]. split.
    { rewrite Hdt1, Hdt2. cbn [select dtype]. exact Hdta. }
    intros idx Hidx. rewrite Hs1 in Hidx.
    apply in_range_flat_heads in Hidx as (b & i & h & d & -> & Hb & Hi & Hh & Hd).
    rewrite Hd1, Hd2 by assumption.
    apply attn_out_ext. intros j Hj _.
    cbn [select data firstn skipn app]. split.
    + unfold dot_qk. rewrite <- !rsum_scale. apply rsum_ext. intros d' Hd'.
      cbn [select data firstn skipn app].
      rewrite !Hda by (assumption || lia).
      rewrite !bool_decide_eq_true_2 by lia.
      rewrite <- Rpower_quarter_twice. ring.
    + rewrite Hda by (assumption || lia).
      rewrite bool_decide_eq_false_2 by lia. ring.
  - exists o2, o2, (if Req_dec_T p 0 then g else rng_skip (B * H * N * N) g).
    split.
    { unfold fused_sigmoid_flash2_attn.
      rewrite bind_run, lift_run, (fused_kernel_input_unscaled qkv B N H D)
        by assumption.
      unfold flash_attn_sigmoid_qkvpacked_func. rewrite Hs.
      rewrite <- Hrun2. unfold flash2_sigmoid_attn.
      rewrite (bind_run (lift _)), lift_run, (size_last_shape4 _ B N H D)
        by apply Hsel.
      destruct D as [|d]; [done|]. reflexivity. }
    split; [exact Hrun2|]. split; [exact Hs2|].
    repeat split.
Qed.

Lemma tensor_eqv_sym a b : tensor_eqv a b -> tensor_eqv b a.
Proof.
  intros (Hs & Hd & He). split; [congruence|]. split; [congruence|].
  intros idx Hidx. rewrite <- Hs in Hidx. symmetry. apply He. assumption.
Qed.

Lemma tensor_eqv_trans a b c :
  tensor_eqv a b -> tensor_eqv b c -> tensor_eqv a c.
Proof.
  intros (Hs1 & Hd1 & He1) (Hs2 & Hd2 & He2).
  split; [congruence|]. split; [congruence|].
  intros idx Hidx. rewrite He1 by assumption. apply He2.
  rewrite <- Hs1. assumption.
Qed.

(** X6. On a packed [qkv] of shape [(B, N, 3, H, D)] with [D > 0], the fused
    helper returns what the unfused helper returns on the three slices
    [qkv[:, :, 0]], [qkv[:, :, 1]], [qkv[:, :, 2]]: outputs of shape
    [(B, N, H * D)] that agree on every element, and the same random state
    afterwards, for either value of [prescale]. *)
Theorem fused_matches_unfused qkv sigmoid_bias attn_drop window_size
    alibi_slopes causal prescale g B N H D :
  shape qkv = [B; N; 3; H; D] -> D <> 0 ->
  alibi_ok alibi_slopes B H = true ->
  (-1 <= window_size.1)%Z -> (-1 <= window_size.2)%Z ->
  exists o1 o2 g',
    fused_sigmoid_flash2_attn qkv sigmoid_bias attn_drop window_size
      alibi_slopes causal prescale g = Ok (o1, g')
    /\ flash2_sigmoid_attn (select qkv 2 0) (select qkv 2 1) (select qkv 2 2)
         sigmoid_bias attn_drop window_size alibi_slopes causal prescale g
       = Ok (o2, g')
    /\ shape o1 = [B; N; H * D]
    /\ tensor_eqv o1 o2.
Proof. apply fused_unfused_run. Qed.

(** X7. The fused helper's two scaling paths agree: with [prescale=True]
    (q and k slices scaled through the broadcast [(1, 1, 3, 1, 1)] tensor,
    kernel scale 1.0) and with [prescale=False] (kernel default scale) it
    returns outputs that agree on every element and the same random state.
    Tensor elements are ideal reals, so rounding is left aside. *)
Theorem fused_prescale_paths_agree qkv sigmoid_bias attn_drop window_size
    alibi_slopes causal g B N H D :
  shape qkv = [B; N; 3; H; D] -> D <> 0 ->
  alibi_ok alibi_slopes B H = true ->
  (-1 <= window_size.1)%Z -> (-1 <= window_size.2)%Z ->
  exists o1 o2 g',
    fused_sigmoid_flash2_attn qkv sigmoid_bias attn_drop window_size
      alibi_slopes causal true g = Ok (o1, g')
    /\ fused_sigmoid_flash2_attn qkv sigmoid_bias attn_drop window_size
         alibi_slopes causal false g = Ok (o2, g')
    /\ tensor_eqv o1 o2.
Proof.
  intros Hs HD Hal Hw1 Hw2.
  destruct (fused_unfused_run qkv sigmoid_bias attn_drop window_size
              alibi_slopes causal true g B N H D)
    as (o1 & u1 & g1 & Hf1 & Hu1 & _ & He1); try assumption.
  destruct (fused_unfused_run qkv sigmoid_bias attn_drop window_size
              alibi_slopes causal false g B N H D)
    as (o2 & u2 & g2 & Hf2 & Hu2 & _ & He2); try assumption.
  rewrite flash2_is_reference in Hu1, Hu2. rewrite Hu1 in Hu2.
  injection Hu2 as <- <-.
  exists o1, o2, g1. split; [exact Hf1|]. split; [exact Hf2|].
  eapply tensor_eqv_trans; [exact He1|]. apply tensor_eqv_sym. exact He2.
Qed.

(** ** Masked keys *)

Lemma masked_keys_run q k v k' v' sb p w al cz prescale g B Sq Sk H D i :
  shape q = [B; Sq; H; D] -> shape k = [B; Sk; H; D] ->
  shape v = [B; Sk; H; D] -> shape k' = [B; Sk; H; D] ->
  shape v' = [B; Sk; H; D] -> D <> 0 ->
  alibi_ok al B H = true -> (-1 <= w.1)%Z -> (-1 <= w.2)%Z ->
  (forall j, j < Sk -> masked cz w Sq Sk i j = false ->
     forall b h d, d < D ->
       data k' [b; j; h; d] = data k [b; j; h; d]
       /\ data v' [b; j; h; d] = data v [b; j; h; d]) ->
  exists out out' g',
    flash2_sigmoid_attn q k v sb p w al cz prescale g = Ok (out, g')
    /\ flash2_sigmoid_attn q k' v' sb p w al cz prescale g = Ok (out', g')
    /\ shape out = [B; Sq; H * D] /\ shape out' = [B; Sq; H * D]
    /\ forall b h d, d < D ->
         data out' [b; i; h * D + d] = data out [b; i; h * D + d].
Proof.
  intros Hq Hk Hv Hk' Hv' HD Hal Hw1 Hw2 Hagree.
  destruct (flash2_on_consistent_shapes q k v sb p w al cz prescale g
              B Sq Sk H D) as (out & Hrun & Hs & _ & Hd); try assumption.
  destruct (flash2_on_consistent_shapes q k' v' sb p w al cz prescale g
              B Sq Sk H D) as (out' & Hrun' & Hs' & _ & Hd'); try assumption.
  exists out, out', (if Req_dec_T p 0 then g else rng_skip (B * H * Sq * Sk) g).
  repeat (split; [assumption|]).
  intros b h d Hdlt. rewrite Hd, Hd' by assumption.
  apply attn_out_ext. intros j Hj Hm. split.
  - f_equal. unfold dot_qk. apply rsum_ext. intros d' Hd'lt.
    destruct (Hagree j Hj Hm b h d' Hd'lt) as [-> _]. reflexivity.
  - destruct (Hagree j Hj Hm b h d Hdlt) as [_ ->]. reflexivity.
Qed.

Lemma masked_future_key w N i j :
  i < j -> masked true w N N i j = true.
Proof.
  intros Hij. unfold masked. cbn [andb].
  rewrite (proj2 (Z.ltb_lt _ _)) by lia. reflexivity.
Qed.

Lemma masked_outside_window cz w Sq Sk i j :
  (0 <= w.1 /\ Z.of_nat j < Z.of_nat i - w.1)%Z
  \/ (0 <= w.2 /\ Z.of_nat i + w.2 < Z.of_nat j)%Z ->
  masked cz w Sq Sk i j = true.
Proof.
  intros [[H0 H1]|[H0 H1]]; unfold masked.
  - rewrite (proj2 (Z.leb_le _ _) H0), (proj2 (Z.ltb_lt _ _) H1).
    cbn [andb]. rewrite orb_true_r. reflexivity.
  - rewrite (proj2 (Z.leb_le _ _) H0), (proj2 (Z.ltb_lt _ _) H1).
    cbn [andb]. rewrite orb_true_r. reflexivity.
Qed.

(** X8. Output row [i] of [flash2_sigmoid_attn] does not depend on the keys
    and values the mask hides from query [i]: if [k'], [v'] differ from [k],
    [v] only at key positions that lie in the causal future of [i] (equal
    sequence lengths) or outside its local window, row [i] of the output is
    the same, and so is the random state afterwards. *)
Theorem masked_keys_do_not_matter q k v k' v' sigmoid_bias attn_drop
    window_size alibi_slopes causal prescale g B Sq Sk H D i :
  shape q = [B; Sq; H; D] -> shape k = [B; Sk; H; D] ->
  shape v = [B; Sk; H; D] -> shape k' = [B; Sk; H; D] ->
  shape v' = [B; Sk; H; D] -> D <> 0 ->
  alibi_ok alibi_slopes B H = true ->
  (-1 <= window_size.1)%Z -> (-1 <= window_size.2)%Z ->
  (forall j, j < Sk ->
     (causal = true /\ Sq = Sk /\ i < j)
     \/ (0 <= window_size.1 /\ Z.of_nat j < Z.of_nat i - window_size.1)%Z
     \/ (0 <= window_size.2 /\ Z.of_nat i + window_size.2 < Z.of_nat j)%Z
     \/ (forall b h d, d < D ->
           data k' [b; j; h; d] = data k [b; j; h; d]
           /\ data v' [b; j; h; d] = data v [b; j; h; d])) ->
  exists out out' g',
    flash2_sigmoid_attn q k v sigmoid_bias attn_drop window_size alibi_slopes
      causal prescale g = Ok (out, g')
    /\ flash2_sigmoid_attn q k' v' sigmoid_bias attn_drop window_size
         alibi_slopes causal prescale g = Ok (out', g')
    /\ forall b h d, d < D ->
         data out' [b; i; h * D + d] = data out [b; i; h * D + d].
Proof.
  intros Hq Hk Hv Hk' Hv' HD Hal Hw1 Hw2 Hrows.
  destruct (masked_keys_run q k v k' v' sigmoid_bias attn_drop window_size
              alibi_slopes causal prescale g B Sq Sk H D i)
    as (out & out' & g' & Hr & Hr' & _ & _ & Hd); try assumption.
  - intros j Hj Hm.
    destruct (Hrows j Hj) as [(-> & -> & Hij)|[Hl|[Hr|Hsame]]].
    + rewrite masked_future_key in Hm by assumption. discriminate Hm.
    + rewrite masked_outside_window in Hm by (left; assumption).
      discriminate Hm.
    + rewrite masked_outside_window in Hm by (right; assumption).
      discriminate Hm.
    + exact Hsame.
  - exists out, out', g'. auto.
Qed.

(** ** Without dropout *)

Lemma Dropout_forward_inactive d x g :
  drop_p d = 0%R \/ drop_training d = false ->
  Dropout_forward d x g = Ok (x, g).
Proof.
  intros [Hp|Ht].
  - apply Dropout_forward_disabled. assumption.
  - unfold Dropout_forward. rewrite Ht. reflexivity.
Qed.

Lemma kernel_run_no_dropout q k v B Sq Sk H D s w al cz sb g g0 :
  kernel_run (mkKernelArgs q k v B Sq Sk H D s 0 w al cz sb) g
  = with_rng_of (kernel_run (mkKernelArgs q k v B Sq Sk H D s 0 w al cz sb) g0) g.
Proof.
  unfold kernel_run, with_rng_of. cbn [kdropout_p kB kSq kSk kH kD kq].
  destruct (Req_dec_T 0 0) as [_|Hne]; [|lra].
  do 3 f_equal. apply functional_extensionality. intros idx.
  unfold attn_out. cbn [kSk kcausal kwindow_size kSq kv].
  apply rsum_ext. intros j _. destruct (masked _ _ _ _ _ _); [reflexivity|].
  f_equal. unfold dropped_weight. cbn [kdropout_p].
  rewrite !weight_dropout_disabled. reflexivity.
Qed.

Lemma flash2_no_dropout q k v sb w al cz prescale g g0 :
  flash2_sigmoid_attn q k v sb 0 w al cz prescale g
  = with_rng_of (flash2_sigmoid_attn q k v sb 0 w al cz prescale g0) g.
Proof.
  rewrite !flash2_is_reference. unfold reference_sigmoid_attn.
  rewrite !(bind_run (lift _)), !lift_run.
  destruct (size_last q ≫= _) as [s|e]; [|reflexivity].
  rewrite !bind_run. unfold flash_attn_sigmoid_func.
  destruct (shape q) as [|B [|Sq [|H [|D [|]]]]]; try reflexivity.
  destruct (shape k) as [|Bk [|Sk [|Hk [|Dk [|]]]]]; try reflexivity.
  destruct (shape v) as [|Bv [|Sv [|Hv [|Dv [|]]]]]; try reflexivity.
  destruct (negb _); [reflexivity|].
  destruct (bool_decide _); [reflexivity|].
  rewrite !bind_run, !lift_run.
  rewrite (kernel_run_no_dropout _ _ _ _ _ _ _ _ _ _ _ _ _ g g0).
  unfold kernel_run, with_rng_of. rewrite !lift_run.
  destruct (flatten _ 2); reflexivity.
Qed.

(** X9. With [attn_drop = 0] and the output dropout inactive ([p = 0] or
    eval mode), [forward] of either layer with the default helper draws no
    random numbers: its result (output record or exception) is the same from
    every random state, and the random state is returned untouched. *)
Theorem forward_without_dropout_leaves_rng :
  (forall self x kw g g0,
     FlashSigmoidAttention.attn_drop self = 0%R ->
     FlashSigmoidAttention.which_flash_attn self = flash2_sigmoid_attn_kw ->
     drop_p (FlashSigmoidAttention.proj_drop self) = 0%R
     \/ drop_training (FlashSigmoidAttention.proj_drop self) = false ->
     observe (FlashSigmoidAttention.forward x kw (mkLayerState self g))
     = with_rng_of
         (observe (FlashSigmoidAttention.forward x kw (mkLayerState self g0)))
         g)
  /\ (forall self q kv kw g g0,
        FlashSigmoidCrossAttention.attn_drop self = 0%R ->
        FlashSigmoidCrossAttention.which_flash_attn self
        = flash2_sigmoid_attn_kw ->
        drop_p (FlashSigmoidCrossAttention.proj_drop self) = 0%R
        \/ drop_training (FlashSigmoidCrossAttention.proj_drop self) = false ->
        observe (FlashSigmoidCrossAttention.forward q kv kw
                   (mkLayerState self g))
        = with_rng_of
            (observe (FlashSigmoidCrossAttention.forward q kv kw
                        (mkLayerState self g0)))
            g).
Proof.
  split.
  - intros self x kw g g0 Had Hattn Hpd. rewrite !self_forward_run.
    destruct (FlashSigmoidAttention.attn_call self x) as [c|e] eqn:Hc;
      [|reflexivity].
    assert (Hp : arg_attn_drop c = 0%R).
    { apply self_attn_call_steps in Hc
        as (? & ? & ? & ? & ? & ? & ? & _ & _ & _ & _ & ->).
      exact Had. }
    rewrite Hattn. unfold flash2_sigmoid_attn_kw. rewrite Hp.
    rewrite (flash2_no_dropout _ _ _ _ _ _ _ _ g g0).
    destruct (flash2_sigmoid_attn _ _ _ _ _ _ _ _ _ g0) as [[atv g1]|e];
      [|reflexivity].
    cbn [with_rng_of].
    destruct (FlashSigmoidAttention.proj self atv) as [y|e]; [|reflexivity].
    rewrite !Dropout_forward_inactive by assumption. reflexivity.
  - intros self q kv kw g g0 Had Hattn Hpd. rewrite !cross_forward_run.
    destruct (FlashSigmoidCrossAttention.attn_call self q kv) as [c|e] eqn:Hc;
      [|reflexivity].
    assert (Hp : arg_attn_drop c = 0%R).
    { apply cross_attn_call_steps in Hc
        as (? & ? & ? & ? & ? & ? & ? & ? & _ & _ & _ & _ & _ & ->).
      exact Had. }
    rewrite Hattn. unfold flash2_sigmoid_attn_kw. rewrite Hp.
    rewrite (flash2_no_dropout _ _ _ _ _ _ _ _ g g0).
    destruct (flash2_sigmoid_attn _ _ _ _ _ _ _ _ _ g0) as [[atv g1]|e];
      [|reflexivity].
    cbn [with_rng_of].
    destruct (FlashSigmoidCrossAttention.proj self atv) as [y|e];
      [|reflexivity].
    rewrite !Dropout_forward_inactive by assumption. reflexivity.
Qed.

(** ** Positions stay apart until the kernel *)




(** ** Which rows of the fused weight feed q, k and v *)

(** X11. In the self-attention layer the reshape to [(B, N, 3, H, D)] and
    the unbind along axis 2 split the output features of the fused qkv
    projection into three consecutive blocks of [dim] rows of its weight:
    [q[b, n, h, d]] is output feature [h * D + d], [k[b, n, h, d]] feature
    [dim + h * D + d] and [v[b, n, h, d]] feature [2 * dim + h * D + d], with
    the heads consecutive inside a block. *)
Theorem qkv_weight_rows dim sigmoid_bias causal num_heads bias qk_norm
    attn_drop proj_drop window_size alibi_slopes norm_layer w bs qk_transform
    which_flash_attn layer x B N :
  (0 < num_heads)%Z -> (0 < dim)%Z ->
  FlashSigmoidAttention.init dim sigmoid_bias causal num_heads bias qk_norm
    attn_drop proj_drop window_size alibi_slopes norm_layer
    (nn_Linear w bs) qk_transform which_flash_attn = Ok layer ->
  shape x = [B; N; Z.to_nat dim] ->
  let H := Z.to_nat num_heads in
  let D := Z.to_nat (dim / num_heads) in
  let row b n o :=
    (rsum (Z.to_nat dim) (fun c => data x [b; n; c] * w o c)
     + (if bias then bs o else 0))%R in
  exists q k v,
    FlashSigmoidAttention.project_qkv layer x = Ok (q, k, v)
    /\ shape q = [B; N; H; D] /\ shape k = [B; N; H; D]
    /\ shape v = [B; N; H; D]
    /\ forall b n h d, n < N -> h < H -> d < D ->
         data q [b; n; h; d] = row b n (h * D + d)
         /\ data k [b; n; h; d] = row b n (Z.to_nat dim + h * D + d)
         /\ data v [b; n; h; d] = row b n (2 * Z.to_nat dim + h * D + d).
Proof.
  intros Hh Hd Hinit Hx H D row.
  apply self_init_inv in Hinit
    as (_ & Hm & Hnh & _ & _ & _ & _ & _ & _ & _ & _ & Hqkv & _).
  destruct (heads_times_head_dim dim num_heads Hh Hd Hm) as [HHD HDpos].
  fold H D in HHD, HDpos.
  destruct (nn_Linear_run w bs dim (dim * 3) bias x [B; N])
    as (m & y & Hm1 & Hy & Hsy & _ & Hdy); [lia | lia | exact Hx |].
  rewrite Hqkv in Hm1. injection Hm1 as <-.
  destruct (project_qkv_layout layer x y B N (Z.to_nat dim))
    as (q & k & v & Hp & Hsq & Hsk & Hsv & _ & _ & _ & Hlay);
    [rewrite Hnh; lia | exact Hx | exact Hy | |].
  { rewrite Hsy, Hnh, Z2Nat.id by lia. fold H D. cbn [app]. do 2 f_equal.
    rewrite Z2Nat.inj_mul by lia. change (Z.to_nat 3) with 3. f_equal. lia. }
  rewrite Hnh, Z2Nat.id in Hsq, Hsk, Hsv, Hlay by lia.
  fold H D in Hsq, Hsk, Hsv, Hlay.
  exists q, k, v. split; [exact Hp|]. do 3 (split; [assumption|]).
  intros b n h d Hn Hhl Hdl.
  destruct (Hlay b n h d Hn Hhl Hdl) as (-> & -> & ->).
  assert (Hrow : forall o, data y [b; n; o] = row b n o).
  { intros o. change [b; n; o] with ([b; n] ++ [o]).
    rewrite (Hdy [b; n] o eq_refl). reflexivity. }
  rewrite !Hrow, <- HHD.
  replace (2 * H * D) with (2 * (H * D)) by ring.
  repeat split.
Qed.

(** X12. In the cross-attention layer [q[b, n, h, d]] is output feature
    [h * Dq + d] of [q_proj], and the kv projection is split into two
    consecutive blocks of [kv_dim] output features: [k[b, n, h, d]] is feature
    [h * Dkv + d] and [v[b, n, h, d]] feature [kv_dim + h * Dkv + d] of
    [kv_proj]; this holds for unequal [q_dim] and [kv_dim] too. *)
Theorem q_kv_weight_rows q_dim kv_dim sigmoid_bias causal num_heads bias
    qk_norm attn_drop proj_drop window_size alibi_slopes norm_layer w bs
    qk_transform which_flash_attn layer q kv B Sq Sk :
  (0 < num_heads)%Z -> (0 < q_dim)%Z -> (0 < kv_dim)%Z ->
  FlashSigmoidCrossAttention.init q_dim kv_dim sigmoid_bias causal num_heads
    bias qk_norm attn_drop proj_drop window_size alibi_slopes norm_layer
    (nn_Linear w bs) qk_transform which_flash_attn = Ok layer ->
  shape q = [B; Sq; Z.to_nat q_dim] -> shape kv = [B; Sk; Z.to_nat kv_dim] ->
  let H := Z.to_nat num_heads in
  let Dq := Z.to_nat (q_dim / num_heads) in
  let Dkv := Z.to_nat (kv_dim / num_heads) in
  let row n (x : Tensor) b s o :=
    (rsum n (fun c => data x [b; s; c] * w o c)
     + (if bias then bs o else 0))%R in
  exists q0 k0 v0,
    FlashSigmoidCrossAttention.project_q_kv layer q kv = Ok (q0, k0, v0)
    /\ shape q0 = [B; Sq; H; Dq] /\ shape k0 = [B; Sk; H; Dkv]
    /\ shape v0 = [B; Sk; H; Dkv]
    /\ (forall b n h d, n < Sq -> h < H -> d < Dq ->
          data q0 [b; n; h; d] = row (Z.to_nat q_dim) q b n (h * Dq + d))
    /\ (forall b n h d, n < Sk -> h < H -> d < Dkv ->
          data k0 [b; n; h; d] = row (Z.to_nat kv_dim) kv b n (h * Dkv + d)
          /\ data v0 [b; n; h; d]
             = row (Z.to_nat kv_dim) kv b n (Z.to_nat kv_dim + h * Dkv + d)).
Proof.
  intros Hh Hqd Hkvd Hinit Hq Hkv H Dq Dkv row.
  pose proof (cross_init_fields _ _ _ _ _ _ _ _ _ _ _ _ _ _ _ _ Hinit)
    as (_ & _ & _ & _ & _ & Hqp & Hkvp & _).
  apply cross_init_inv in Hinit
    as (_ & Hqm & Hkm & Hnh & Hhq & Hhkv & _).
  destruct (heads_times_head_dim q_dim num_heads Hh Hqd Hqm) as [HHDq HDqpos].
  destruct (heads_times_head_dim kv_dim num_heads Hh Hkvd Hkm)
    as [HHDkv HDkvpos].
  fold H Dq in HHDq, HDqpos. fold H Dkv in HHDkv, HDkvpos.
  destruct (nn_Linear_run w bs q_dim q_dim bias q [B; Sq])
    as (m1 & yq & Hm1 & Hyq & Hsyq & _ & Hdq); [lia | lia | exact Hq |].
  rewrite Hqp in Hm1. injection Hm1 as <-.
  destruct (nn_Linear_run w bs kv_dim (kv_dim * 2) bias kv [B; Sk])
    as (m2 & ykv & Hm2 & Hykv & Hsykv & _ & Hdkv); [lia | lia | exact Hkv |].
  rewrite Hkvp in Hm2. injection Hm2 as <-.
  destruct (project_q_kv_layout layer q kv yq ykv B Sq Sk
              [Z.to_nat q_dim] [Z.to_nat kv_dim])
    as (q0 & k0 & v0 & Hp & Hs1 & Hs2 & Hs3 & _ & _ & _ & Hlq & Hlkv).
  - rewrite Hnh. lia.
  - rewrite Hhq. apply Z.div_pos; lia.
  - rewrite Hhkv. apply Z.div_pos; lia.
  - exact Hq.
  - exact Hkv.
  - exact Hyq.
  - exact Hykv.
  - rewrite Hsyq, Hnh, Hhq. fold H Dq. rewrite HHDq. reflexivity.
  - assert (He : Z.to_nat (kv_dim * 2) = 2 * H * Dkv)
      by (rewrite Z2Nat.inj_mul by lia; change (Z.to_nat 2) with 2; lia).
    rewrite Hsykv, Hnh, Hhkv, He. reflexivity.
  - rewrite Hnh in Hs1, Hs2, Hs3, Hlq, Hlkv. rewrite Hhq in Hs1, Hlq.
    rewrite Hhkv in Hs2, Hs3, Hlkv.
    fold H Dq Dkv in Hs1, Hs2, Hs3, Hlq, Hlkv.
    exists q0, k0, v0. split; [exact Hp|].
    split; [exact Hs1|]. split; [exact Hs2|]. split; [exact Hs3|].
    split.
    + intros b n h d Hn Hhl Hdl. rewrite (Hlq b n h d Hn Hhl Hdl).
      change [b; n; h * Dq + d] with ([b; n] ++ [h * Dq + d]).
      rewrite (Hdq [b; n] _ eq_refl). reflexivity.
    + intros b n h d Hn Hhl Hdl.
      destruct (Hlkv b n h d Hn Hhl Hdl) as (-> & ->). rewrite HHDkv.
      change [b; n; h * Dkv + d] with ([b; n] ++ [h * Dkv + d]).
      change [b; n; Z.to_nat kv_dim + h * Dkv + d]
        with ([b; n] ++ [Z.to_nat kv_dim + h * Dkv + d]).
      rewrite !(Hdkv [b; n] _ eq_refl). split; reflexivity.
Qed.

(** ** The extra properties on the small instance *)



Lemma self_attention_rejects_malformed_input_witness :
  FlashSigmoidAttention.forward demo_head ∅ (mkLayerState demo_self demo_rng)
  = Err (ValueError "wrong number of values to unpack")
  /\ FlashSigmoidAttention.forward demo_q ∅ (mkLayerState demo_self demo_rng)
     = Err (RuntimeError "mat1 and mat2 shapes cannot be multiplied").
Proof.
  destruct self_attention_rejects_malformed_input as [Hrank Hwidth].
  split.
  - apply Hrank. cbn. lia.
  - apply (Hwidth 4%Z 0%R true 2%Z false true 0%R 0%R (-1, -1)%Z None
             (nn_LayerNorm true) demo_weight demo_bias None
             flash2_sigmoid_attn_kw demo_self demo_q 1 2 8 ∅ demo_rng
             demo_self_init eq_refl).
    cbn. lia.
Defined.

Lemma helpers_reject_empty_head_dim_witness :
  flash2_sigmoid_attn demo_empty_head demo_empty_head demo_empty_head 0 0
    (-1, -1)%Z None true false demo_rng = Err ZeroDivisionError
  /\ fused_sigmoid_flash2_attn demo_empty_qkv 0 0 (-1, -1)%Z None true false
       demo_rng = Err ZeroDivisionError.
Proof.
  destruct helpers_reject_empty_head_dim as [Hunfused Hfused].
  split; [apply Hunfused | apply Hfused]; reflexivity.
Defined.

Lemma zero_dim_fails_at_forward_witness :
  exists layer,
    FlashSigmoidAttention.init 0 0 true 2 false false 0 0 (-1, -1)%Z None
      (nn_LayerNorm true) demo_linear None flash2_sigmoid_attn_kw = Ok layer
    /\ FlashSigmoidAttention.forward demo_empty_x ∅
         (mkLayerState layer demo_rng) = Err ZeroDivisionError.
Proof.
  destruct (zero_dim_fails_at_forward 0 true 2 false 0 0 (-1, -1)%Z None true
              demo_weight demo_bias None)
    as (layer & Hinit & Hfwd); [lia | lra | exact I |].
  exists layer. split; [exact Hinit|]. apply (Hfwd _ 1 2). reflexivity.
Defined.

Lemma fused_matches_unfused_witness :
  exists o1 o2 g',
    fused_sigmoid_flash2_attn demo_qkv 0 0 (-1, -1)%Z None true true demo_rng
    = Ok (o1, g')
    /\ flash2_sigmoid_attn (select demo_qkv 2 0) (select demo_qkv 2 1)
         (select demo_qkv 2 2) 0 0 (-1, -1)%Z None true true demo_rng
       = Ok (o2, g')
    /\ shape o1 = [1; 2; 4]
    /\ tensor_eqv o1 o2.
Proof.
  destruct (fused_matches_unfused demo_qkv 0 0 (-1, -1)%Z None true true
              demo_rng 1 2 2 2)
    as (o1 & o2 & g' & H1 & H2 & Hs & He);
    [reflexivity | lia | reflexivity | cbn; lia | cbn; lia |].
  exists o1, o2, g'. split; [exact H1|]. split; [exact H2|].
  split; [exact Hs | exact He].
Defined.

Lemma fused_prescale_paths_agree_witness :
  exists o1 o2 g',
    fused_sigmoid_flash2_attn demo_qkv 0 0 (-1, -1)%Z None true true demo_rng
    = Ok (o1, g')
    /\ fused_sigmoid_flash2_attn demo_qkv 0 0 (-1, -1)%Z None true false
         demo_rng = Ok (o2, g')
    /\ tensor_eqv o1 o2.
Proof.
  destruct (fused_prescale_paths_agree demo_qkv 0 0 (-1, -1)%Z None true
              demo_rng 1 2 2 2)
    as (o1 & o2 & g' & H1 & H2 & He);
    [reflexivity | lia | reflexivity | cbn; lia | cbn; lia |].
  exists o1, o2, g'. split; [exact H1|]. split; [exact H2 | exact He].
Defined.

Lemma masked_keys_do_not_matter_witness :
  exists out out' g',
    flash2_sigmoid_attn demo_head demo_head demo_head 0 0 (-1, -1)%Z None
      true true demo_rng = Ok (out, g')
    /\ flash2_sigmoid_attn demo_head demo_head_future demo_head_future 0 0
         (-1, -1)%Z None true true demo_rng = Ok (out', g')
    /\ data out' [0; 0; 1] = data out [0; 0; 1].
Proof.
  destruct (masked_keys_do_not_matter demo_head demo_head demo_head
              demo_head_future demo_head_future 0 0 (-1, -1)%Z None true true
              demo_rng 1 2 2 1 2 0)
    as (out & out' & g' & H1 & H2 & Hd);
    [reflexivity | reflexivity | reflexivity | reflexivity | reflexivity
     | lia | reflexivity | cbn; lia | cbn; lia | |].
  - intros j Hj. destruct j as [|[|j]]; [| |lia].
    + right. right. right. intros b h d _. split; reflexivity.
    + left. repeat split. lia.
  - exists out, out', g'. split; [exact H1|]. split; [exact H2|].
    apply (Hd 0 0 1). lia.
Defined.

Lemma forward_without_dropout_leaves_rng_witness :
  observe (FlashSigmoidAttention.forward demo_x ∅
             (mkLayerState demo_self demo_rng))
  = with_rng_of
      (observe (FlashSigmoidAttention.forward demo_x ∅
                  (mkLayerState demo_self (fun _ => 1%R))))
      demo_rng
  /\ observe (FlashSigmoidCrossAttention.forward demo_x demo_kv ∅
                (mkLayerState demo_cross_eq demo_rng))
     = with_rng_of
         (observe (FlashSigmoidCrossAttention.forward demo_x demo_kv ∅
                     (mkLayerState demo_cross_eq (fun _ => 1%R))))
         demo_rng.
Proof.
  destruct forward_without_dropout_leaves_rng as [Hself Hcross].
  split.
  - apply Hself; [reflexivity | reflexivity | left; reflexivity].
  - apply Hcross; [reflexivity | reflexivity | left; reflexivity].
Defined.


Lemma qkv_weight_rows_witness :
  exists q k v,
    FlashSigmoidAttention.project_qkv demo_self demo_x = Ok (q, k, v)
    /\ shape v = [1; 2; 2; 2]
    /\ data v [0; 1; 1; 0]
       = (rsum 4 (fun c => data demo_x [0; 1; c]%nat * demo_weight 10 c) + 0)%R.
Proof.
  destruct (qkv_weight_rows 4 0 true 2 false true 0 0 (-1, -1)%Z None
              (nn_LayerNorm true) demo_weight demo_bias None
              flash2_sigmoid_attn_kw demo_self demo_x 1 2)
    as (q & k & v & Hp & _ & _ & Hsv & Hrow);
    [lia | lia | exact demo_self_init | reflexivity |].
  exists q, k, v. split; [exact Hp|]. split; [exact Hsv|].
  destruct (Hrow 0 1 1 0) as (_ & _ & Hv);
    [lia | vm_compute; lia | vm_compute; lia |].
  exact Hv.
Defined.

Lemma q_kv_weight_rows_witness :
  exists q0 k0 v0,
    FlashSigmoidCrossAttention.project_q_kv demo_cross_eq demo_x demo_kv
    = Ok (q0, k0, v0)
    /\ shape q0 = [1; 2; 2; 2] /\ shape v0 = [1; 3; 2; 2]
    /\ data v0 [0; 2; 1; 0]
       = (rsum 4 (fun c => data demo_kv [0; 2; c]%nat * demo_weight 6 c) + 0)%R.
Proof.
  destruct (q_kv_weight_rows 4 4 0 true 2 false false 0 0 (-1, -1)%Z None
              (nn_LayerNorm false) demo_weight demo_bias None
              flash2_sigmoid_attn_kw demo_cross_eq demo_x demo_kv 1 2 3)
    as (q0 & k0 & v0 & Hp & Hsq & _ & Hsv & _ & Hrow);
    [lia | lia | lia | exact demo_cross_eq_init | reflexivity | reflexivity |].
  exists q0, k0, v0. split; [exact Hp|]. split; [exact Hsq|].
  split; [exact Hsv|].
  destruct (Hrow 0 2 1 0) as (_ & Hv);
    [lia | vm_compute; lia | vm_compute; lia |].
  exact Hv.
Defined.
